(** * Tool-metadata extractors of parse_chem_tools

    Shallow embedding of [parse_cactus.py] (class-based extractor) and
    [parse_chemtoolbench.py] (function-based extractor), and the properties
    of their specification.

    Text is modelled by [string]; a character is a code point below 256.
    Python values that end up in a record are modelled by [pyval].  The
    syntax tree is the one [ast.parse] builds, restricted to the fields the
    extractors and [ast.walk] look at. *)

From Stdlib Require Import Ascii String List Arith Lia Bool.
From stdpp Require Import base option list strings gmap fin_maps.
Import ListNotations.
Local Open Scope string_scope.

(** ** Python [str] methods *)

Module PyStr.

Definition NL : ascii := "010"%char.
Definition TAB : ascii := "009"%char.
Definition CR : ascii := "013"%char.
Definition SP : ascii := " "%char.

Definition nl : string := String NL EmptyString.

(** [bool(s)] for a [str]. *)
Definition nonempty (s : string) : bool :=
  match s with EmptyString => false | String _ _ => true end.

(** [str.isspace] of one character: the code points below 256 that
    [str.strip()] removes. *)
Definition isspace (c : ascii) : bool :=
  let n := nat_of_ascii c in
  (((9 <=? n) && (n <=? 13)) || ((28 <=? n) && (n <=? 32))
   || (n =? 133) || (n =? 160))%nat.

(** [s.lstrip()] *)
Fixpoint lstrip (s : string) : string :=
  match s with
  | EmptyString => EmptyString
  | String c s' => if isspace c then lstrip s' else s
  end.

(** [s.rstrip()] *)
Fixpoint rstrip (s : string) : string :=
  match s with
  | EmptyString => EmptyString
  | String c s' =>
      match rstrip s' with
      | EmptyString => if isspace c then EmptyString else String c EmptyString
      | r => String c r
      end
  end.

(** [s.strip()] *)
Definition strip (s : string) : string := lstrip (rstrip s).

(** [s.lstrip(' ')] *)
Fixpoint lstrip_spaces (s : string) : string :=
  match s with
  | EmptyString => EmptyString
  | String c s' => if Ascii.eqb c SP then lstrip_spaces s' else s
  end.

(** [s.split(sep)] for a one-character separator: never the empty list. *)
Fixpoint split (sep : ascii) (s : string) : list string :=
  match s with
  | EmptyString => [EmptyString]
  | String c s' =>
      if Ascii.eqb c sep then EmptyString :: split sep s'
      else match split sep s' with
           | [] => [String c EmptyString]
           | h :: t => String c h :: t
           end
  end.

(** [s.startswith(p)] *)
Definition startswith (p s : string) : bool := String.prefix p s.

(** [c in s] for a one-character [c]. *)
Fixpoint contains_char (c : ascii) (s : string) : bool :=
  match s with
  | EmptyString => false
  | String d s' => Ascii.eqb c d || contains_char c s'
  end.


(** [sep.join(l)] *)
Definition join (sep : string) (l : list string) : string :=
  String.concat sep l.

(** [s.replace(old, new)] for a non-empty [old]: left to right, without
    overlap.  [skip] counts the characters of a match still to drop. *)
Fixpoint replace_from (skip : nat) (old new s : string) : string :=
  match s with
  | EmptyString => EmptyString
  | String c s' =>
      match skip with
      | S k => replace_from k old new s'
      | O =>
          if String.prefix old s
          then new ++ replace_from (String.length old - 1) old new s'
          else String c (replace_from O old new s')
      end
  end.

(** With an empty [old], Python puts [new] around every character. *)
Fixpoint interleave (new s : string) : string :=
  match s with
  | EmptyString => new
  | String c s' => new ++ String c (interleave new s')
  end.

Definition replace (old new s : string) : string :=
  match old with
  | EmptyString => interleave new s
  | _ => replace_from O old new s
  end.

Fixpoint spaces (n : nat) : string :=
  match n with O => EmptyString | S k => String SP (spaces k) end.

(** [s.expandtabs()] with the default tab size 8; [col] is the column. *)
Fixpoint expandtabs_from (col : nat) (s : string) : string :=
  match s with
  | EmptyString => EmptyString
  | String c s' =>
      if Ascii.eqb c TAB then
        let incr := 8 - col mod 8 in
        spaces incr ++ expandtabs_from (col + incr) s'
      else
        String c (expandtabs_from
                    (if Ascii.eqb c NL || Ascii.eqb c CR then O else S col) s')
  end.

Definition expandtabs (s : string) : string := expandtabs_from O s.

(** [s[n:]] *)
Fixpoint drop_chars (n : nat) (s : string) : string :=
  match n, s with
  | O, _ => s
  | S k, EmptyString => EmptyString
  | S k, String _ s' => drop_chars k s'
  end.

End PyStr.

(** ** Python values and the syntax tree *)

Module Ast.

(** The value of a literal ([ast.Constant.value]) and of a record field.
    Of a [float] or [complex] literal the extractors observe only whether
    it is zero. *)
Inductive pyval : Type :=
| VNone
| VBool (b : bool)
| VInt (z : Z)
| VFloat (nonzero : bool)
| VStr (s : string)
| VBytes (s : string)
| VEllipsis.

(** [bool(v)] *)
Definition truthy (v : pyval) : bool :=
  match v with
  | VNone => false
  | VBool b => b
  | VInt z => negb (Z.eqb z 0)
  | VFloat nonzero => nonzero
  | VStr s => PyStr.nonempty s
  | VBytes s => PyStr.nonempty s
  | VEllipsis => true
  end.

(** [isinstance(v, str)] *)
Definition is_str (v : pyval) : bool :=
  match v with VStr _ => true | _ => false end.

(** Expressions.  An expression that is neither a literal nor a bare
    identifier is known by the text [ast.unparse] prints for it, and so is
    a literal ([src]). *)
Inductive expr : Type :=
| Constant (value : pyval) (src : string)
| Name (id : string)
| OtherExpr (src : string).

(** [ast.unparse(e)] *)
Definition unparse (e : expr) : string :=
  match e with
  | Constant _ src => src
  | Name id => id
  | OtherExpr src => src
  end.

(** [ast.arg] *)
Record arg : Type := mk_arg { arg_name : string; annotation : option expr }.

(** [ast.arguments] *)
Record arguments : Type := mk_arguments {
  posonlyargs : list arg;
  args : list arg;
  vararg : option arg;
  kwonlyargs : list arg;
  kw_defaults : list (option expr);
  kwarg : option arg;
  defaults : list expr
}.

#[local] Unset Elimination Schemes.
(** The nodes that can hold a statement.  [Other] is any other node (a
    compound statement, an exception handler, an [async def], a simple
    statement) with its statement-holding children in field order.
    Expression and argument nodes hold no statement and are left out of
    the children: leaving them out does not change the order in which
    [ast.walk] reaches the others. *)
Inductive node : Type :=
| Module (body : list node)
| ClassDef (name : string) (body : list node)
| FunctionDef (name : string) (fargs : arguments) (returns : option expr)
              (body : list node)
| Assign (targets : list expr) (value : expr)
| AnnAssign (target : expr) (ann : expr) (value : option expr)
| Expr (value : expr)
| Other (children : list node).
#[local] Set Elimination Schemes.

(** [ast.iter_child_nodes], on the nodes above. *)
Definition iter_child_nodes (n : node) : list node :=
  match n with
  | Module body => body
  | ClassDef _ body => body
  | FunctionDef _ _ _ body => body
  | Other children => children
  | Assign _ _ | AnnAssign _ _ _ | Expr _ => []
  end.

(** Number of nodes of a tree and of a queue of trees. *)
Fixpoint size (n : node) : nat :=
  let fix sizes (l : list node) : nat :=
    match l with
    | [] => O
    | m :: l' => size m + sizes l'
    end in
  match n with
  | Module body => S (sizes body)
  | ClassDef _ body => S (sizes body)
  | FunctionDef _ _ _ body => S (sizes body)
  | Other children => S (sizes children)
  | Assign _ _ | AnnAssign _ _ _ | Expr _ => 1
  end.

Fixpoint sizes (l : list node) : nat :=
  match l with
  | [] => O
  | m :: l' => size m + sizes l'
  end.

(** [ast.walk]: the loop [while todo: node = todo.popleft();
    todo.extend(iter_child_nodes(node)); yield node].  [fuel] bounds the
    number of iterations; [sizes todo] iterations empty the queue
    ([walk_loop_fuel]). *)
Fixpoint walk_loop (fuel : nat) (todo : list node) : list node :=
  match fuel with
  | O => []
  | S fuel' =>
      match todo with
      | [] => []
      | n :: rest => n :: walk_loop fuel' (rest ++ iter_child_nodes n)
      end
  end.

Definition walk_queue (todo : list node) : list node :=
  walk_loop (sizes todo) todo.

Definition walk (tree : node) : list node := walk_queue [tree].

(** Document order: a node, then its children's subtrees from left to
    right, each node with its nesting depth. *)
Fixpoint preorder (d : nat) (n : node) : list (nat * node) :=
  (d, n) ::
  match n with
  | Module body | ClassDef _ body | FunctionDef _ _ _ body | Other body =>
      flat_map (preorder (S d)) body
  | Assign _ _ | AnnAssign _ _ _ | Expr _ => []
  end.

Definition document_order (tree : node) : list node :=
  map snd (preorder O tree).

(** The nodes of nesting depth [k], in document order. *)
Definition nodes_at_depth (k : nat) (tree : node) : list node :=
  map snd (List.filter (fun p => Nat.eqb (fst p) k) (preorder O tree)).

(** The nodes [k] levels below [n], from left to right. *)
Fixpoint level (k : nat) (n : node) : list node :=
  match k with
  | O => [n]
  | S k' => flat_map (level k') (iter_child_nodes n)
  end.

(** [inspect.cleandoc], as in Python 3.13: the margin is counted in spaces
    (tabs are expanded first).  Earlier versions count any leading white
    space, which is the same on docstrings indented with spaces and tabs. *)
Definition indent_of (line : string) : option nat :=
  let content := String.length (PyStr.lstrip_spaces line) in
  match content with
  | O => None
  | _ => Some (String.length line - content)
  end.

Definition min_margin (margin : option nat) (line : string) : option nat :=
  match indent_of line, margin with
  | None, _ => margin
  | Some i, None => Some i
  | Some i, Some m => Some (Nat.min m i)
  end.

Fixpoint drop_leading_blank (lines : list string) : list string :=
  match lines with
  | EmptyString :: rest => drop_leading_blank rest
  | _ => lines
  end.

Definition drop_trailing_blank (lines : list string) : list string :=
  rev (drop_leading_blank (rev lines)).

Definition cleandoc (doc : string) : string :=
  match PyStr.split PyStr.NL (PyStr.expandtabs doc) with
  | [] => EmptyString
  | first :: rest =>
      let margin := fold_left min_margin rest None in
      let first' := PyStr.lstrip_spaces first in
      let rest' :=
        match margin with
        | Some m => map (PyStr.drop_chars m) rest
        | None => rest
        end in
      PyStr.join PyStr.nl
        (drop_leading_blank (drop_trailing_blank (first' :: rest')))
  end.

(** [ast.get_docstring(node)] for a function, class or module node;
    [None] stands for Python's [None]. *)
Definition get_docstring (n : node) : option string :=
  match n with
  | Module body | ClassDef _ body | FunctionDef _ _ _ body =>
      match body with
      | Expr (Constant (VStr text) _) :: _ => Some (cleandoc text)
      | _ => None
      end
  | _ => None
  end.

(** [node.body] *)
Definition node_body (n : node) : list node :=
  match n with
  | Module body | ClassDef _ body | FunctionDef _ _ _ body => body
  | _ => []
  end.

End Ast.

(** ** The record both extractors build *)

(** The [dict] with the keys [name], [description], [inputs], [outputs]. *)
Record tool_info : Type := mk_tool_info {
  name : Ast.pyval;
  description : Ast.pyval;
  inputs : Ast.pyval;
  outputs : Ast.pyval
}.

(** What a call does: return a value or raise. *)
Inductive exn : Type := SyntaxError | RecursionError.

Inductive result (A : Type) : Type :=
| Return (a : A)
| Raise (e : exn).
Arguments Return {A} a.
Arguments Raise {A} e.

(** One statement after the other: an exception ends the run. *)
Definition bind {A B : Type} (c : result A) (k : A -> result B) : result B :=
  match c with
  | Return a => k a
  | Raise e => Raise e
  end.

Notation "'call' x <- c ;; k" := (bind c (fun x => k))
  (at level 10, x name, c at level 99, k at level 200).

(** [ast.unparse(e)] with its failure: the printer is recursive, and on an
    expression nested too deeply for the interpreter's stack it raises
    [RecursionError].  [overflows] tells on which expressions that happens;
    elsewhere the call returns [Ast.unparse e]. *)
Definition ast_unparse (overflows : Ast.expr -> bool) (e : Ast.expr)
  : result string :=
  if overflows e then Raise RecursionError else Return (Ast.unparse e).

(** ** parse_cactus.py: [CactusToolParser] *)

Module Cactus.
Import Ast.

(** The string literal a top-level statement binds to a single name:
    the two branches of the loop of [_extract_module_constants]. *)
Definition constant_binding (n : node) : option (string * string) :=
  match n with
  | Assign [Name var_name] (Constant (VStr s) _) =>
      Some (var_name, PyStr.strip s)
  | AnnAssign (Name var_name) _ (Some (Constant (VStr s) _)) =>
      Some (var_name, PyStr.strip s)
  | _ => None
  end.

Definition constants_step (constants : gmap string string) (n : node)
  : gmap string string :=
  match constant_binding n with
  | Some (var_name, s) => <[var_name := s]> constants
  | None => constants
  end.

Definition _extract_module_constants (tree : node) : gmap string string :=
  fold_left constants_step (node_body tree) ∅.

(** [_extract_from_signature] *)
Definition render_arg (a : arg) : string :=
  match annotation a with
  | Some t => arg_name a ++ ": " ++ unparse t
  | None => arg_name a
  end.

Definition not_self (a : arg) : bool :=
  negb (String.eqb (arg_name a) "self").

Definition _extract_from_signature (fargs : arguments)
  (returns : option expr) : string * string :=
  let inputs := map render_arg (List.filter not_self (args fargs)) in
  let outputs := match returns with
                 | Some r => unparse r
                 | None => EmptyString
                 end in
  (PyStr.join ", " inputs, outputs).

(** [_parse_docstring]: the state of the loop over the lines. *)
Inductive section : Type := NoSection | Parameters | Returns.

Record doc_state : Type := mk_doc_state {
  current_section : section;
  doc_inputs : list string;
  doc_outputs : list string
}.

Definition doc_line (st : doc_state) (line : string) : doc_state :=
  if PyStr.startswith "Parameters" line then
    mk_doc_state Parameters (doc_inputs st) (doc_outputs st)
  else if PyStr.startswith "Returns" line then
    mk_doc_state Returns (doc_inputs st) (doc_outputs st)
  else if PyStr.startswith "---" line then st
  else
    match current_section st with
    | Parameters =>
        if PyStr.nonempty line && negb (PyStr.startswith "-" line) then
          if PyStr.contains_char ":" line
          then mk_doc_state Parameters (doc_inputs st ++ [line]) (doc_outputs st)
          else st
        else st
    | Returns =>
        if PyStr.nonempty line && negb (PyStr.startswith "-" line)
        then mk_doc_state Returns (doc_inputs st) (doc_outputs st ++ [line])
        else st
    | NoSection => st
    end.

(** One iteration: [line = line.strip()], then the branches. *)
Definition doc_step (st : doc_state) (raw : string) : doc_state :=
  doc_line st (PyStr.strip raw).

Definition scan_docstring (docstring : string) : doc_state :=
  fold_left doc_step (PyStr.split PyStr.NL docstring)
    (mk_doc_state NoSection [] []).

Definition _parse_docstring (docstring : option string)
  (fargs : arguments) (returns : option expr) : string * string :=
  match docstring with
  | Some d =>
      if PyStr.nonempty d then
        let st := scan_docstring d in
        (PyStr.join ", " (doc_inputs st), PyStr.join " " (doc_outputs st))
      else _extract_from_signature fargs returns
  | None => _extract_from_signature fargs returns
  end.

(** [_extract_tool_info]: first loop, the attributes [name] and
    [description]. *)
Definition resolve (constants : gmap string string) (value : option expr)
  (old : pyval) : pyval :=
  match value with
  | Some (Constant v _) => v
  | Some (Name id) =>
      match constants !! id with
      | Some s => VStr s
      | None => old
      end
  | _ => old
  end.

Definition attr_step (constants : gmap string string) (info : tool_info)
  (item : node) : tool_info :=
  match item with
  | AnnAssign (Name attr_name) _ value =>
      if String.eqb attr_name "name" then
        mk_tool_info (resolve constants value (name info))
          (description info) (inputs info) (outputs info)
      else if String.eqb attr_name "description" then
        mk_tool_info (name info)
          (resolve constants value (description info))
          (inputs info) (outputs info)
      else info
  | _ => info
  end.

(** Second loop: the first method named [_run], then [break]. *)
Fixpoint run_step (info : tool_info) (body : list node) : tool_info :=
  match body with
  | [] => info
  | item :: rest =>
      match item with
      | FunctionDef fname fargs returns _ =>
          if String.eqb fname "_run" then
            let '(i, o) := _parse_docstring (get_docstring item) fargs returns in
            mk_tool_info (name info) (description info) (VStr i) (VStr o)
          else run_step info rest
      | _ => run_step info rest
      end
  end.

Definition _extract_tool_info (class_node : node)
  (constants : gmap string string) : option tool_info :=
  let tool_info0 :=
    mk_tool_info (VStr "") (VStr "") (VStr "") (VStr "") in
  let tool_info1 :=
    fold_left (attr_step constants) (node_body class_node) tool_info0 in
  let tool_info2 := run_step tool_info1 (node_body class_node) in
  if truthy (name tool_info2) && truthy (description tool_info2)
  then Some tool_info2
  else None.

Definition is_ClassDef (n : node) : bool :=
  match n with ClassDef _ _ => true | _ => false end.

(** A direct child statement that is a method named [_run]. *)
Definition is_run (item : node) : bool :=
  match item with
  | FunctionDef fname _ _ _ => String.eqb fname "_run"
  | _ => false
  end.

Definition has_run (body : list node) : bool := existsb is_run body.

(** The record after the first loop of [_extract_tool_info]. *)
Definition attributes (constants : gmap string string) (body : list node)
  : tool_info :=
  fold_left (attr_step constants) body
    (mk_tool_info (VStr "") (VStr "") (VStr "") (VStr "")).

(** A class whose [name] and [description] both resolve to a non-empty
    value. *)
Definition qualifying (constants : gmap string string) (n : node) : bool :=
  is_ClassDef n
  && truthy (name (attributes constants (node_body n)))
  && truthy (description (attributes constants (node_body n))).

(** An annotated assignment to the attribute [attr]. *)
Definition declares (attr : string) (item : node) : bool :=
  match item with
  | AnnAssign (Name a) _ _ => String.eqb a attr
  | _ => false
  end.

(** The specification's words for the constant table: a top-level
    statement assigns the string literal [s] to the single name [x], by a
    plain or by an annotated assignment. *)
Inductive assigns_literal (x s : string) : node -> Prop :=
| assigns_plain src :
    assigns_literal x s (Assign [Name x] (Constant (VStr s) src))
| assigns_annotated ann src :
    assigns_literal x s (AnnAssign (Name x) ann (Some (Constant (VStr s) src))).

(** The statement enters a binding for [x] into the table. *)
Definition rebinds (x : string) (n : node) : bool :=
  match constant_binding n with
  | Some (y, _) => String.eqb y x
  | None => false
  end.

(** The second pass of [parse_content], on the parsed tree. *)
Fixpoint collect_tools (constants : gmap string string)
  (nodes : list node) : list tool_info :=
  match nodes with
  | [] => []
  | n :: rest =>
      if is_ClassDef n then
        match _extract_tool_info n constants with
        | Some tool => tool :: collect_tools constants rest
        | None => collect_tools constants rest
        end
      else collect_tools constants rest
  end.

Definition parse_tree (tree : node) : list tool_info :=
  let constants := _extract_module_constants tree in
  collect_tools constants (walk tree).

(** The same functions with the exception that [ast.unparse] may raise.
    The functions above give what is returned when it does not raise
    ([Cactus.Raising] and they agree then, see [cactus_collect_tools_raising]). *)
Module Raising.
Section WithUnparse.
Variable overflows : expr -> bool.

(** The loop over [func_node.args.args] of [_extract_from_signature]. *)
Fixpoint render_args (l : list arg) : result (list string) :=
  match l with
  | [] => Return []
  | a :: rest =>
      if not_self a then
        call entry <- match annotation a with
                 | Some t =>
                     call text <- ast_unparse overflows t ;;
                     Return (arg_name a ++ ": " ++ text)
                 | None => Return (arg_name a)
                 end ;;
        call entries <- render_args rest ;;
        Return (entry :: entries)
      else render_args rest
  end.

Definition _extract_from_signature (fargs : arguments)
  (returns : option expr) : result (string * string) :=
  call inputs <- render_args (args fargs) ;;
  call outputs <- match returns with
             | Some r => ast_unparse overflows r
             | None => Return EmptyString
             end ;;
  Return (PyStr.join ", " inputs, outputs).

Definition _parse_docstring (docstring : option string)
  (fargs : arguments) (returns : option expr) : result (string * string) :=
  match docstring with
  | Some d =>
      if PyStr.nonempty d then
        let st := scan_docstring d in
        Return (PyStr.join ", " (doc_inputs st), PyStr.join " " (doc_outputs st))
      else _extract_from_signature fargs returns
  | None => _extract_from_signature fargs returns
  end.

Fixpoint run_step (info : tool_info) (body : list node) : result tool_info :=
  match body with
  | [] => Return info
  | item :: rest =>
      match item with
      | FunctionDef fname fargs returns _ =>
          if String.eqb fname "_run" then
            call io <- _parse_docstring (get_docstring item) fargs returns ;;
            Return (mk_tool_info (name info) (description info)
                      (VStr (fst io)) (VStr (snd io)))
          else run_step info rest
      | _ => run_step info rest
      end
  end.

Definition _extract_tool_info (class_node : node)
  (constants : gmap string string) : result (option tool_info) :=
  let tool_info0 :=
    mk_tool_info (VStr "") (VStr "") (VStr "") (VStr "") in
  let tool_info1 :=
    fold_left (attr_step constants) (node_body class_node) tool_info0 in
  call tool_info2 <- run_step tool_info1 (node_body class_node) ;;
  Return (if truthy (name tool_info2) && truthy (description tool_info2)
          then Some tool_info2
          else None).

Fixpoint collect_tools (constants : gmap string string)
  (nodes : list node) : result (list tool_info) :=
  match nodes with
  | [] => Return []
  | n :: rest =>
      if is_ClassDef n then
        call tool_info <- _extract_tool_info n constants ;;
        call tools <- collect_tools constants rest ;;
        Return (match tool_info with
                | Some tool => tool :: tools
                | None => tools
                end)
      else collect_tools constants rest
  end.

Definition parse_tree (tree : node) : result (list tool_info) :=
  let constants := _extract_module_constants tree in
  collect_tools constants (walk tree).

End WithUnparse.
End Raising.

Section WithParser.
(** [ast.parse]: the tree of a source text, or the exception it raises. *)
Variable ast_parse : string -> result node.
Variable overflows : expr -> bool.

End WithParser.

End Cactus.

(** ** parse_chemtoolbench.py *)

Module ChemToolBench.
Import Ast.

(** [parse_docstring]: the state of the loop over the lines.  [doc_parts]
    is the dictionary under construction. *)
Inductive section : Type :=
| NoSection | SecName | SecDescription | SecParameters | SecReturns.

Record doc_state : Type := mk_doc_state {
  doc_parts : gmap string string;
  current_section : section;
  parameters : list string
}.

Definition is_parameters (s : section) : bool :=
  match s with SecParameters => true | _ => false end.

Definition is_returns (s : section) : bool :=
  match s with SecReturns => true | _ => false end.

Definition doc_line (st : doc_state) (line : string) : doc_state :=
  if PyStr.startswith "Name:" line then
    mk_doc_state
      (<["name" := PyStr.strip (PyStr.replace "Name:" "" line)]> (doc_parts st))
      SecName (parameters st)
  else if PyStr.startswith "Description:" line then
    mk_doc_state
      (<["description" := PyStr.strip (PyStr.replace "Description:" "" line)]>
         (doc_parts st))
      SecDescription (parameters st)
  else if PyStr.startswith "Parameters:" line then
    mk_doc_state (doc_parts st) SecParameters (parameters st)
  else if PyStr.startswith "Returns:" line then
    mk_doc_state (doc_parts st) SecReturns (parameters st)
  else if is_parameters (current_section st) && PyStr.nonempty line
          && PyStr.contains_char ":" line then
    mk_doc_state (doc_parts st) (current_section st)
      (parameters st ++ [PyStr.strip line])
  else if is_returns (current_section st) && PyStr.nonempty line
          && PyStr.contains_char ":" line then
    mk_doc_state (<["returns" := PyStr.strip line]> (doc_parts st))
      (current_section st) (parameters st)
  else st.

(** One iteration: [line = line.strip()], then the branches. *)
Definition doc_step (st : doc_state) (raw : string) : doc_state :=
  doc_line st (PyStr.strip raw).

(** The lines of a docstring as the loop sees them. *)
Definition stripped_lines (docstring : string) : list string :=
  map PyStr.strip (PyStr.split PyStr.NL (PyStr.strip docstring)).

(** A line that opens a section: it starts with one of the four labels. *)
Definition is_label (line : string) : bool :=
  PyStr.startswith "Name:" line || PyStr.startswith "Description:" line
  || PyStr.startswith "Parameters:" line || PyStr.startswith "Returns:" line.

(** A non-empty line with a colon: the lines a section captures. *)
Definition captured (line : string) : bool :=
  PyStr.nonempty line && PyStr.contains_char ":" line.

Definition scan_docstring (docstring : string) : doc_state :=
  fold_left doc_step (PyStr.split PyStr.NL (PyStr.strip docstring))
    (mk_doc_state ∅ NoSection []).

Definition parse_docstring (docstring : string) : gmap string string :=
  let st := scan_docstring docstring in
  match parameters st with
  | [] => doc_parts st
  | _ => <["parameters" := PyStr.join PyStr.nl (parameters st)]> (doc_parts st)
  end.

(** [str(x)] of an optional string: [None] prints as [None]. *)
Definition format_opt (x : option string) : string :=
  match x with
  | Some s => s
  | None => "None"
  end.

(** One entry of the list [parameters] and its rendering. *)
Definition param_entry (a : arg) : string * option string :=
  (arg_name a, option_map unparse (annotation a)).

Definition render_param (x : string * option string) : string :=
  fst x ++ " (" ++ format_opt (snd x) ++ ")".

(** [dict.get(key, default)] with values lifted to [pyval]. *)
Definition get_str (doc : gmap string string) (key : string)
  (default : pyval) : pyval :=
  match doc !! key with
  | Some s => VStr s
  | None => default
  end.

Definition parse_function_node (func_node : node) : option tool_info :=
  match func_node with
  | FunctionDef function_name fargs returns _ =>
      match get_docstring func_node with
      | None => None
      | Some docstring =>
          if PyStr.nonempty docstring then
            let doc_parts := parse_docstring docstring in
            let parameters :=
              PyStr.join PyStr.nl
                (map render_param (map param_entry (args fargs))) in
            let return_type :=
              match returns with
              | Some r => VStr (unparse r)
              | None => VNone
              end in
            Some (mk_tool_info
                    (VStr function_name)
                    (get_str doc_parts "description" (VStr ""))
                    (get_str doc_parts "parameters" (VStr parameters))
                    (get_str doc_parts "returns" return_type))
          else None
      end
  | _ => None
  end.

Definition is_FunctionDef (n : node) : bool :=
  match n with FunctionDef _ _ _ _ => true | _ => false end.

(** A function definition with a non-empty docstring. *)
Definition qualifying (n : node) : bool :=
  is_FunctionDef n
  && match get_docstring n with
     | Some d => PyStr.nonempty d
     | None => false
     end.

Fixpoint collect_tools (nodes : list node) : list tool_info :=
  match nodes with
  | [] => []
  | n :: rest =>
      if is_FunctionDef n then
        match parse_function_node n with
        | Some tool => tool :: collect_tools rest
        | None => collect_tools rest
        end
      else collect_tools rest
  end.

Definition parse_tree (tree : node) : list tool_info :=
  collect_tools (walk tree).

(** The same functions with the exception that [ast.unparse] may raise. *)
Module Raising.
Section WithUnparse.
Variable overflows : expr -> bool.

(** The loop over [func_node.args.args] of [parse_function_node]. *)
Fixpoint param_entries (l : list arg)
  : result (list (string * option string)) :=
  match l with
  | [] => Return []
  | a :: rest =>
      call param_type <- match annotation a with
                    | Some t =>
                        call text <- ast_unparse overflows t ;; Return (Some text)
                    | None => Return None
                    end ;;
      call entries <- param_entries rest ;;
      Return ((arg_name a, param_type) :: entries)
  end.

Definition parse_function_node (func_node : node)
  : result (option tool_info) :=
  match func_node with
  | FunctionDef function_name fargs returns _ =>
      match get_docstring func_node with
      | None => Return None
      | Some docstring =>
          if PyStr.nonempty docstring then
            let doc_parts := parse_docstring docstring in
            call entries <- param_entries (args fargs) ;;
            let parameters := PyStr.join PyStr.nl (map render_param entries) in
            call return_type <- match returns with
                           | Some r =>
                               call text <- ast_unparse overflows r ;;
                               Return (VStr text)
                           | None => Return VNone
                           end ;;
            Return (Some (mk_tool_info
                            (VStr function_name)
                            (get_str doc_parts "description" (VStr ""))
                            (get_str doc_parts "parameters" (VStr parameters))
                            (get_str doc_parts "returns" return_type)))
          else Return None
      end
  | _ => Return None
  end.

Fixpoint collect_tools (nodes : list node) : result (list tool_info) :=
  match nodes with
  | [] => Return []
  | n :: rest =>
      if is_FunctionDef n then
        call tool_info <- parse_function_node n ;;
        call tools <- collect_tools rest ;;
        Return (match tool_info with
                | Some tool => tool :: tools
                | None => tools
                end)
      else collect_tools rest
  end.

Definition parse_tree (tree : node) : result (list tool_info) :=
  collect_tools (walk tree).

End WithUnparse.
End Raising.

Section WithParser.
Variable ast_parse : string -> result node.
Variable overflows : expr -> bool.

End WithParser.

End ChemToolBench.

(** ** Example programs *)

Module Examples.
Import Ast.

(** A string literal as written in the source. *)
Definition str_lit (s : string) : expr := Constant (VStr s) ("'" ++ s ++ "'").

(** [attr: str = value] *)
Definition annotated (attr : string) (value : expr) : node :=
  AnnAssign (Name attr) (Name "str") (Some value).

(** [pass] *)
Definition pass_stmt : node := Other [].

Definition positional (l : list arg) (defaults : list expr) : arguments :=
  mk_arguments [] l None [] [] None defaults.

Definition doc_of (lines : list string) : string := PyStr.join PyStr.nl lines.

(** [class T:  name: str = "t";  description: str = "d"] *)
Definition class_without_run : node :=
  ClassDef "T" [annotated "name" (str_lit "t");
                annotated "description" (str_lit "d")].

(** [class T:  name: int = 5;  description: str = "d"] *)
Definition class_int_name : node :=
  ClassDef "T" [AnnAssign (Name "name") (Name "int") (Some (Constant (VInt 5) "5"));
                annotated "description" (str_lit "d")].

(** [def _run(self, a: int) -> str:] with the docstring [Run the tool.] *)
Definition run_plain_doc : node :=
  FunctionDef "_run"
    (positional [mk_arg "self" None; mk_arg "a" (Some (Name "int"))] [])
    (Some (Name "str"))
    [Expr (str_lit "Run the tool."); pass_stmt].

Definition class_plain_doc : node :=
  ClassDef "T" [annotated "name" (str_lit "t");
                annotated "description" (str_lit "d");
                run_plain_doc].

(** [def _run(self, a: int, b: str = "x"): pass] *)
Definition run_no_doc : node :=
  FunctionDef "_run"
    (positional [mk_arg "self" None; mk_arg "a" (Some (Name "int"));
                 mk_arg "b" (Some (Name "str"))] [str_lit "x"])
    None [pass_stmt].


(** [class T:  name: str = "t";  description: str = DESC] *)
Definition class_desc : node :=
  ClassDef "T" [annotated "name" (str_lit "t");
                annotated "description" (Name "DESC")].

(** [DESC = "hello"], then the class. *)
Definition module_desc : node :=
  Module [Assign [Name "DESC"] (str_lit "hello"); class_desc].

(** [DESC = "hello"], [DESC = "bye"], then the class. *)
Definition module_desc_twice : node :=
  Module [Assign [Name "DESC"] (str_lit "hello");
          Assign [Name "DESC"] (str_lit "bye"); class_desc].

(** A tool class named [n] with further statements [more]. *)
Definition tool_class (n : string) (more : list node) : node :=
  ClassDef n ([annotated "name" (str_lit n);
               annotated "description" (str_lit "d")] ++ more)%list.

Definition tool_record (n : string) : tool_info :=
  mk_tool_info (VStr n) (VStr "d") (VStr "") (VStr "").

(** Class [A] with class [B] inside it, then class [C]. *)
Definition module_nested : node :=
  Module [tool_class "A" [tool_class "B" []]; tool_class "C" []].

(** [def f(self, a: int):] with the docstring [Description: d] *)
Definition function_described : node :=
  FunctionDef "f"
    (positional [mk_arg "self" None; mk_arg "a" (Some (Name "int"))] [])
    None
    [Expr (str_lit "Description: d"); pass_stmt].

(** [def g(a):] with a Returns section of two lines. *)
Definition returns_doc : string :=
  doc_of ["Description: Does X"; "Returns:"; "  first (str): one";
          "  second (int): two"].

Definition function_two_returns : node :=
  FunctionDef "g" (positional [mk_arg "a" None] []) (Some (Name "str"))
    [Expr (str_lit returns_doc); pass_stmt].


End Examples.

(** ** parse_all_tools.py: the report writer *)

Module Report.

Definition tab : string := String PyStr.TAB EmptyString.

(** The line [csv['inputs'] = "\t".join(csv['inputs'].split("\n"))] of the
    report loop, on the text of [inputs]. *)
Definition flatten_inputs (s : string) : string :=
  PyStr.join tab (PyStr.split PyStr.NL s).

(** A text with every character replaced by its image. *)
Fixpoint translate (f : ascii -> ascii) (s : string) : string :=
  match s with
  | EmptyString => EmptyString
  | String c s' => String (f c) (translate f s')
  end.

Definition newline_to_tab (c : ascii) : ascii :=
  if Ascii.eqb c PyStr.NL then PyStr.TAB else c.

End Report.

(** ** Vocabulary for the shape of programs and records *)

Module Shape.
Import Ast.

(** The value of an attribute that the first loop of [_extract_tool_info]
    passes over: no value, an identifier that is not in the table, or an
    expression that is neither a literal nor an identifier. *)
Definition unresolved (constants : gmap string string) (value : option expr)
  : bool :=
  match value with
  | Some (Constant _ _) => false
  | Some (Name id) =>
      match constants !! id with
      | Some _ => false
      | None => true
      end
  | _ => true
  end.

(** The statement sets nothing for the attribute [attr]. *)
Definition leaves_unset (constants : gmap string string) (attr : string)
  (item : node) : bool :=
  match item with
  | AnnAssign (Name a) _ value =>
      negb (String.eqb a attr) || unresolved constants value
  | _ => true
  end.

(** A literal given to [name] or [description] is a string. *)
Definition string_attribute (item : node) : bool :=
  match item with
  | AnnAssign (Name a) _ (Some (Constant v _)) =>
      if String.eqb a "name" || String.eqb a "description"
      then is_str v else true
  | _ => true
  end.

(** A line that the class-based docstring loop treats as a heading or as
    an underline. *)
Definition is_heading (line : string) : bool :=
  PyStr.startswith "Parameters" line || PyStr.startswith "Returns" line.

(** What a captured parameter line of the class-based loop looks like. *)
Definition parameter_line (line : string) : Prop :=
  PyStr.strip line = line
  /\ PyStr.nonempty line = true
  /\ PyStr.contains_char ":" line = true
  /\ PyStr.startswith "-" line = false
  /\ is_heading line = false.

(** What a captured return line of the class-based loop looks like. *)
Definition return_line (line : string) : Prop :=
  PyStr.strip line = line
  /\ PyStr.nonempty line = true
  /\ PyStr.startswith "-" line = false
  /\ is_heading line = false.

(** [func_node.name] *)
Definition function_name (n : node) : string :=
  match n with
  | FunctionDef fname _ _ _ => fname
  | _ => EmptyString
  end.

(** The depth of every node selected by [sel] is [d]. *)
Definition all_at_depth (sel : node -> bool) (d : nat) (tree : node) : Prop :=
  forall p, In p (preorder O tree) -> sel (snd p) = true -> fst p = d.

End Shape.

(** ** Vocabulary for the expressions that are printed *)

Module Unparsed.
Import Ast.







End Unparsed.

(** ** Further example programs *)

Module MoreExamples.
Import Ast Examples.

(** [DESC = "  hello  "] and [N: int = 3] *)
Definition module_padded : node :=
  Module [Assign [Name "DESC"] (str_lit "  hello  ");
          AnnAssign (Name "N") (Name "int") (Some (Constant (VInt 3) "3"))].

(** [class T:  name = "t";  description: str = "d"]: the name is a plain
    assignment. *)
Definition class_plain_name : list node :=
  [Assign [Name "name"] (str_lit "t"); annotated "description" (str_lit "d")].

(** A docstring without a heading. *)
Definition free_text : string := doc_of ["Run the tool."; "x: the input"].

(** A numpy-style docstring. *)
Definition numpy_doc : string :=
  doc_of ["Run it."; ""; "Parameters"; "----------"; "x : int";
          "    the input"; ""; "Returns"; "-------"; "str"].

(** [def f(a: int) -> str:] with a free-text docstring. *)
Definition function_free_text : node :=
  FunctionDef "f" (positional [mk_arg "a" (Some (Name "int"))] [])
    (Some (Name "str")) [Expr (str_lit free_text); pass_stmt].

(** [def h(a):] with a description of two lines and a parameter. *)
Definition described_doc : string :=
  doc_of ["Description: Adds one"; "  to its argument."; "Parameters:";
          "  a (int): the number"].

Definition function_two_line_description : node :=
  FunctionDef "h" (positional [mk_arg "a" None] []) None
    [Expr (str_lit described_doc); pass_stmt].

(** Two top-level tool classes and a function between them. *)
Definition module_flat : node :=
  Module [tool_class "A" []; function_free_text; tool_class "C" []].








(** Two documented functions at top level, with a class between them. *)
Definition documented (fname : string) : node :=
  FunctionDef fname (positional [mk_arg "a" (Some (Name "int"))] []) None
    [Expr (str_lit "Description: d"); pass_stmt].

Definition module_two_functions : node :=
  Module [documented "f"; tool_class "A" []; documented "g"].

End MoreExamples.

(** * Properties *)

(** ** Traversal *)

Section Walk.
Import Ast.
Local Open Scope list_scope.

Lemma sizes_app (a b : list node) : sizes (a ++ b) = sizes a + sizes b.
Proof. induction a as [|n a IH]; simpl; [reflexivity | rewrite IH; lia]. Qed.

Lemma size_children (n : node) : size n = S (sizes (iter_child_nodes n)).
Proof.
  assert (H : forall l : list node,
             (fix sizes (l : list node) : nat :=
                match l with
                | [] => O
                | m :: l' => size m + sizes l'
                end) l = sizes l).
  { induction l as [|m l IH]; simpl; congruence. }
  destruct n; simpl; rewrite ?H; reflexivity.
Qed.

Lemma size_pos (n : node) : 0 < size n.
Proof. rewrite size_children. lia. Qed.

Lemma sizes_zero (l : list node) : sizes l = 0 -> l = [].
Proof.
  destruct l as [|n l]; [reflexivity | simpl].
  pose proof (size_pos n). lia.
Qed.

Lemma sizes_flat_children (q : list node) :
  sizes (flat_map iter_child_nodes q) + length q = sizes q.
Proof.
  induction q as [|n q IH]; simpl; [reflexivity |].
  rewrite sizes_app, size_children. lia.
Qed.

Lemma sizes_In (c : node) (l : list node) : In c l -> size c <= sizes l.
Proof.
  induction l as [|m l IH]; simpl; [tauto |].
  intros [-> | H]; [lia | apply IH in H; lia].
Qed.

(** Induction on a tree from its children. *)
Lemma node_children_ind (P : node -> Prop) :
  (forall n, (forall c, In c (iter_child_nodes n) -> P c) -> P n) ->
  forall n, P n.
Proof.
  intros step n.
  assert (H : forall m n, size n <= m -> P n).
  { induction m as [|m IH]; intros k Hk.
    - pose proof (size_pos k). lia.
    - apply step. intros c Hc. apply IH.
      apply sizes_In in Hc. rewrite size_children in Hk. lia. }
  apply (H (size n)). lia.
Qed.

(** The loop of [ast.walk] ends: any fuel from [sizes todo] on gives the
    same result. *)
Lemma walk_loop_fuel (fuel : nat) (todo : list node) :
  sizes todo <= fuel -> walk_loop fuel todo = walk_queue todo.
Proof.
  revert todo. induction fuel as [|fuel IH]; intros todo Hle.
  - assert (todo = []) as -> by (apply sizes_zero; lia). reflexivity.
  - destruct todo as [|n rest]; [reflexivity |].
    unfold walk_queue. simpl sizes. rewrite (size_children n). simpl.
    f_equal. simpl in Hle. rewrite size_children in Hle.
    rewrite IH by (rewrite sizes_app; lia).
    unfold walk_queue. f_equal. rewrite sizes_app. lia.
Qed.

Lemma walk_queue_nil : walk_queue [] = [].
Proof. reflexivity. Qed.

Lemma walk_queue_cons (n : node) (rest : list node) :
  walk_queue (n :: rest) = n :: walk_queue (rest ++ iter_child_nodes n).
Proof.
  unfold walk_queue at 1. simpl sizes. rewrite (size_children n). simpl.
  f_equal. apply walk_loop_fuel. rewrite sizes_app. lia.
Qed.

Lemma walk_queue_app (q1 q2 : list node) :
  walk_queue (q1 ++ q2)
  = q1 ++ walk_queue (q2 ++ flat_map iter_child_nodes q1).
Proof.
  revert q2. induction q1 as [|n q1 IH]; intros q2; simpl.
  - rewrite app_nil_r. reflexivity.
  - rewrite walk_queue_cons. f_equal.
    rewrite <- app_assoc, IH, <- app_assoc. reflexivity.
Qed.

(** A whole level leaves the queue before the next one. *)
Lemma walk_queue_level (q : list node) :
  walk_queue q = q ++ walk_queue (flat_map iter_child_nodes q).
Proof.
  rewrite <- (app_nil_r q) at 1. rewrite walk_queue_app. reflexivity.
Qed.

Lemma flat_map_level_succ (k : nat) (q : list node) :
  flat_map (level (S k)) q = flat_map (level k) (flat_map iter_child_nodes q).
Proof.
  induction q as [|n q IH]; simpl; [reflexivity |].
  rewrite flat_map_app. f_equal. exact IH.
Qed.

Lemma flat_map_level_zero (q : list node) : flat_map (level 0) q = q.
Proof.
  induction q as [|n q IH]; [reflexivity |].
  change (n :: flat_map (level 0) q = n :: q). rewrite IH. reflexivity.
Qed.

Lemma flat_map_after_map {A B C : Type} (f : B -> list C) (g : A -> B)
  (l : list A) :
  flat_map f (map g l) = flat_map (fun x => f (g x)) l.
Proof. induction l as [|x l IH]; simpl; [reflexivity | rewrite IH; reflexivity]. Qed.

Lemma walk_queue_levels (m : nat) (q : list node) :
  sizes q <= m ->
  walk_queue q = flat_map (fun k => flat_map (level k) q) (seq 0 m).
Proof.
  revert q. induction m as [|m IH]; intros q Hle.
  - assert (q = []) as -> by (apply sizes_zero; lia). reflexivity.
  - rewrite walk_queue_level. simpl seq. simpl flat_map.
    rewrite flat_map_level_zero. f_equal.
    rewrite <- seq_shift, flat_map_after_map.
    rewrite IH.
    + apply flat_map_ext. intros k. symmetry. apply flat_map_level_succ.
    + pose proof (sizes_flat_children q) as Hs.
      destruct q as [|n q]; [simpl; lia | simpl in *; lia].
Qed.

Lemma preorder_eq (d : nat) (n : node) :
  preorder d n = (d, n) :: flat_map (preorder (S d)) (iter_child_nodes n).
Proof. destruct n; reflexivity. Qed.

Lemma preorder_depth_ge (n : node) :
  forall d p, In p (preorder d n) -> d <= fst p.
Proof.
  induction n as [n IH] using node_children_ind. intros d p.
  rewrite preorder_eq. intros [<- | Hin]; [simpl; lia |].
  apply in_flat_map in Hin as (c & Hc & Hp).
  apply (IH c Hc) in Hp. lia.
Qed.

Lemma filter_nothing {A : Type} (f : A -> bool) (l : list A) :
  (forall x, In x l -> f x = false) -> List.filter f l = [].
Proof.
  induction l as [|x l IH]; intros H; simpl; [reflexivity |].
  rewrite (H x) by (left; reflexivity).
  apply IH. intros y Hy. apply H. right. exact Hy.
Qed.

Lemma filter_flat_map' {A B : Type} (f : B -> bool) (g : A -> list B)
  (l : list A) :
  List.filter f (flat_map g l) = flat_map (fun x => List.filter f (g x)) l.
Proof.
  induction l as [|x l IH]; simpl; [reflexivity |].
  rewrite List.filter_app, IH. reflexivity.
Qed.

Lemma map_flat_map' {A B C : Type} (f : B -> C) (g : A -> list B)
  (l : list A) :
  map f (flat_map g l) = flat_map (fun x => map f (g x)) l.
Proof.
  induction l as [|x l IH]; simpl; [reflexivity |].
  rewrite List.map_app, IH. reflexivity.
Qed.

(** The nodes [k] levels below [n] are those of depth [d + k] in the
    document-order listing of [n] from depth [d]. *)
Lemma level_preorder (k : nat) :
  forall n d,
    level k n
    = map snd (List.filter (fun p => Nat.eqb (fst p) (d + k)) (preorder d n)).
Proof.
  induction k as [|k IH]; intros n d; rewrite preorder_eq; simpl.
  - rewrite Nat.add_0_r, Nat.eqb_refl. simpl. f_equal.
    rewrite filter_nothing; [reflexivity |].
    intros p Hp. apply in_flat_map in Hp as (c & _ & Hp).
    apply preorder_depth_ge in Hp. apply Nat.eqb_neq. lia.
  - replace (Nat.eqb d (d + S k)) with false
      by (symmetry; apply Nat.eqb_neq; lia).
    rewrite filter_flat_map', map_flat_map'.
    apply flat_map_ext. intros c. rewrite (IH c (S d)).
    replace (S d + k) with (d + S k) by lia. reflexivity.
Qed.

(** [ast.walk] lists the tree level by level, each level in document
    order. *)
Lemma walk_level_order (tree : node) :
  walk tree = flat_map (fun k => nodes_at_depth k tree) (seq 0 (size tree)).
Proof.
  unfold walk. rewrite (walk_queue_levels (size tree)) by (simpl; lia).
  apply flat_map_ext. intros k. simpl. rewrite app_nil_r.
  unfold nodes_at_depth. apply (level_preorder k tree 0).
Qed.

End Walk.

(** ** The class-based extractor *)

Section ClassBased.
Import Ast Cactus Examples.
Local Open Scope list_scope.

Lemma attr_step_io constants info item :
  inputs (attr_step constants info item) = inputs info
  /\ outputs (attr_step constants info item) = outputs info.
Proof.
  destruct item as [| | | |target ? ?| |]; try (split; reflexivity).
  destruct target; try (split; reflexivity).
  simpl. repeat (destruct (String.eqb _ _)); split; reflexivity.
Qed.

Lemma fold_attr_step_io constants body info :
  inputs (fold_left (attr_step constants) body info) = inputs info
  /\ outputs (fold_left (attr_step constants) body info) = outputs info.
Proof.
  revert info. induction body as [|item body IH]; intros info; simpl.
  - split; reflexivity.
  - destruct (IH (attr_step constants info item)) as [-> ->].
    apply attr_step_io.
Qed.

Lemma attributes_io constants body :
  inputs (attributes constants body) = VStr ""
  /\ outputs (attributes constants body) = VStr "".
Proof. apply (fold_attr_step_io constants body). Qed.

(** Without a method [_run] the second loop changes nothing. *)
Lemma run_step_no_run info body :
  has_run body = false -> run_step info body = info.
Proof.
  induction body as [|item body IH]; simpl; [reflexivity |].
  intros H. apply orb_false_elim in H as [Hitem Hbody].
  destruct item; simpl in Hitem; try (apply IH; exact Hbody).
  rewrite Hitem. apply IH. exact Hbody.
Qed.

(** The second loop stops at the first method [_run]. *)
Lemma run_step_first info pre post fargs returns fbody :
  has_run pre = false ->
  run_step info (pre ++ FunctionDef "_run" fargs returns fbody :: post)
  = let io := _parse_docstring
                (get_docstring (FunctionDef "_run" fargs returns fbody))
                fargs returns in
    mk_tool_info (name info) (description info) (VStr (fst io)) (VStr (snd io)).
Proof.
  induction pre as [|item pre IH]; simpl.
  - intros _. destruct (_parse_docstring _ fargs returns). reflexivity.
  - intros H. apply orb_false_elim in H as [Hitem Hpre].
    destruct item; simpl in Hitem; try (apply IH; exact Hpre).
    rewrite Hitem. apply IH. exact Hpre.
Qed.

Lemma run_step_attrs info body :
  name (run_step info body) = name info
  /\ description (run_step info body) = description info.
Proof.
  induction body as [|item body IH]; simpl; [split; reflexivity |].
  destruct item; try exact IH.
  destruct (String.eqb _ _); [| exact IH].
  destruct (_parse_docstring _ _ _). split; reflexivity.
Qed.

Lemma extract_tool_info_Some cname body constants info :
  _extract_tool_info (ClassDef cname body) constants = Some info ->
  info = run_step (attributes constants body) body
  /\ truthy (name info) = true /\ truthy (description info) = true.
Proof.
  unfold _extract_tool_info. simpl node_body. fold (attributes constants body).
  destruct (truthy _ && truthy _) eqn:E; [| discriminate].
  intros [= <-]. apply andb_prop in E. tauto.
Qed.

Lemma collect_tools_app constants (a b : list node) :
  collect_tools constants (a ++ b)
  = collect_tools constants a ++ collect_tools constants b.
Proof.
  induction a as [|n a IH]; simpl; [reflexivity |].
  destruct (is_ClassDef n); [| exact IH].
  destruct (_extract_tool_info n constants); [| exact IH].
  simpl. f_equal. exact IH.
Qed.

Lemma collect_tools_flat_map {A : Type} constants (f : A -> list node)
  (l : list A) :
  collect_tools constants (flat_map f l)
  = flat_map (fun x => collect_tools constants (f x)) l.
Proof.
  induction l as [|x l IH]; simpl; [reflexivity |].
  rewrite collect_tools_app, IH. reflexivity.
Qed.

(** Every record of the class-based extractor comes from a class whose
    [name] and [description] are both true values. *)
Lemma collect_tools_complete constants nodes info :
  In info (collect_tools constants nodes) ->
  truthy (name info) = true /\ truthy (description info) = true.
Proof.
  induction nodes as [|n nodes IH]; simpl; [tauto |].
  destruct (is_ClassDef n) eqn:Hc; [| exact IH].
  destruct (_extract_tool_info n constants) as [tool|] eqn:E; [| exact IH].
  intros [<- | Hin]; [| apply IH; exact Hin].
  destruct n; try discriminate.
  apply extract_tool_info_Some in E. tauto.
Qed.

(** C1, as stated, fails: the class [class_without_run] has a name and a
    description and no method [_run], and the extractor emits a record
    for it. *)
Lemma C1_counterexample :
  has_run (node_body class_without_run) = false
  /\ truthy (name (attributes ∅ (node_body class_without_run))) = true
  /\ truthy (description (attributes ∅ (node_body class_without_run))) = true
  /\ _extract_tool_info class_without_run ∅ <> None
  /\ Cactus.parse_tree (Module [class_without_run])
     = [mk_tool_info (VStr "t") (VStr "d") (VStr "") (VStr "")].
Proof. repeat split. discriminate. Qed.

(** C1, amended: a class whose [name] and [description] resolve to
    non-empty values and which has no method [_run] among its direct child
    statements yields a record, with that name and description and with
    empty [inputs] and [outputs]. *)
Theorem C1_class_without_run_is_emitted cname body constants :
  truthy (name (attributes constants body)) = true ->
  truthy (description (attributes constants body)) = true ->
  has_run body = false ->
  _extract_tool_info (ClassDef cname body) constants
  = Some (mk_tool_info (name (attributes constants body))
            (description (attributes constants body)) (VStr "") (VStr "")).
Proof.
  intros Hn Hd Hrun. unfold _extract_tool_info. simpl node_body.
  fold (attributes constants body).
  rewrite (run_step_no_run _ _ Hrun), Hn, Hd. simpl.
  destruct (attributes_io constants body) as [Hi Ho].
  destruct (attributes constants body) as [n d i o]. simpl in *.
  rewrite Hi, Ho. reflexivity.
Qed.

Lemma C1_class_without_run_is_emitted_witness :
  _extract_tool_info class_without_run ∅
  = Some (mk_tool_info (VStr "t") (VStr "d") (VStr "") (VStr "")).
Proof.
  apply (C1_class_without_run_is_emitted "T"
           (node_body class_without_run) ∅); reflexivity.
Defined.

(** C2: the class [class_int_name] declares [name: int = 5]; the emitted
    record carries the integer 5 as its name, which is not a string. *)
Theorem C2_name_that_is_not_a_string :
  Cactus.parse_tree (Module [class_int_name])
  = [mk_tool_info (VInt 5) (VStr "d") (VStr "") (VStr "")]
  /\ is_str (VInt 5) = false.
Proof. split; reflexivity. Qed.

(** A numpy-style docstring: the underlines are skipped, the parameter
    line must hold a colon. *)
Example underline_skipped :
  _parse_docstring
    (Some (doc_of ["Run it."; ""; "Parameters"; "----------"; "x : int";
                   "    the input"; ""; "Returns"; "-------"; "str";
                   "    the result"]))
    (positional [] []) None
  = ("x : int", "str the result").
Proof. reflexivity. Qed.

(** C3, as stated, fails: the method [run_plain_doc] has the docstring
    [Run the tool.], from which no parameter line and no return line is
    captured; the record's [inputs] and [outputs] are empty, while the
    signature gives [a: int] and [str]. *)
Lemma C3_counterexample :
  get_docstring run_plain_doc = Some "Run the tool."
  /\ doc_inputs (scan_docstring "Run the tool.") = []
  /\ doc_outputs (scan_docstring "Run the tool.") = []
  /\ _extract_from_signature
       (positional [mk_arg "self" None; mk_arg "a" (Some (Name "int"))] [])
       (Some (Name "str")) = ("a: int", "str")
  /\ Cactus.parse_tree (Module [class_plain_doc])
     = [mk_tool_info (VStr "t") (VStr "d") (VStr "") (VStr "")].
Proof. repeat split. Qed.

(** C3, amended: when the first method [_run] of a class has a non-empty
    docstring from which no parameter line and no return line is captured,
    the record's [inputs] and [outputs] are both the empty string; the
    signature is not consulted. *)
Theorem C3_docstring_without_sections
  constants cname pre post fargs returns fbody d info :
  has_run pre = false ->
  get_docstring (FunctionDef "_run" fargs returns fbody) = Some d ->
  PyStr.nonempty d = true ->
  doc_inputs (scan_docstring d) = [] ->
  doc_outputs (scan_docstring d) = [] ->
  _extract_tool_info
    (ClassDef cname (pre ++ FunctionDef "_run" fargs returns fbody :: post))
    constants = Some info ->
  inputs info = VStr "" /\ outputs info = VStr "".
Proof.
  intros Hpre Hdoc Hd Hin Hout Hinfo.
  apply extract_tool_info_Some in Hinfo as [-> _].
  rewrite (run_step_first _ pre post fargs returns fbody Hpre), Hdoc.
  unfold _parse_docstring. rewrite Hd, Hin, Hout. split; reflexivity.
Qed.

Lemma C3_docstring_without_sections_witness :
  inputs (mk_tool_info (VStr "t") (VStr "d") (VStr "") (VStr "")) = VStr ""
  /\ outputs (mk_tool_info (VStr "t") (VStr "d") (VStr "") (VStr "")) = VStr "".
Proof.
  apply (C3_docstring_without_sections ∅ "T"
           [annotated "name" (str_lit "t"); annotated "description" (str_lit "d")]
           []
           (positional [mk_arg "self" None; mk_arg "a" (Some (Name "int"))] [])
           (Some (Name "str"))
           [Expr (str_lit "Run the tool."); pass_stmt]
           "Run the tool.");
    reflexivity.
Defined.

(** The signature is what [_parse_docstring] returns when the method has no
    docstring, or an empty one. *)
Lemma parse_docstring_fallback fargs returns :
  _parse_docstring None fargs returns = _extract_from_signature fargs returns
  /\ _parse_docstring (Some "") fargs returns
     = _extract_from_signature fargs returns.
Proof. split; reflexivity. Qed.




(** C6, as stated, fails: in [module_nested] class [B] is written inside
    class [A] and before class [C], yet its record comes last. *)
Lemma C6_counterexample :
  Cactus.parse_tree module_nested
  = [tool_record "A"; tool_record "C"; tool_record "B"]
  /\ collect_tools (_extract_module_constants module_nested)
       (document_order module_nested)
     = [tool_record "A"; tool_record "B"; tool_record "C"]
  /\ Cactus.parse_tree module_nested
     <> collect_tools (_extract_module_constants module_nested)
          (document_order module_nested).
Proof. repeat split. discriminate. Qed.

(** C6, amended: the records come level by level: first those of the
    classes of nesting depth 0, then depth 1, and so on; within one depth
    they are in source-document order. *)
Theorem C6_records_level_by_level tree :
  Cactus.parse_tree tree
  = flat_map
      (fun k => collect_tools (_extract_module_constants tree)
                  (nodes_at_depth k tree))
      (seq 0 (size tree)).
Proof.
  unfold Cactus.parse_tree. rewrite walk_level_order.
  apply collect_tools_flat_map.
Qed.

(** *** The constant table *)

Lemma constant_binding_spec n x v :
  constant_binding n = Some (x, v)
  <-> exists s, assigns_literal x s n /\ v = PyStr.strip s.
Proof.
  split.
  - destruct n as [| | |targets value|target ? value| |]; simpl; try discriminate.
    + destruct targets as [|[| id |] [|]]; try discriminate.
      destruct value as [[]| |]; try discriminate.
      intros [= <- <-]. eexists. split; [constructor | reflexivity].
    + destruct target; try discriminate.
      destruct value as [[[]| |]|]; try discriminate.
      intros [= <- <-]. eexists. split; [constructor | reflexivity].
  - intros (s & H & ->). destruct H; reflexivity.
Qed.

Lemma rebinds_spec n x :
  rebinds x n = false <-> forall s, ~ assigns_literal x s n.
Proof.
  unfold rebinds. split.
  - intros H s Hs.
    assert (E : constant_binding n = Some (x, PyStr.strip s))
      by (apply constant_binding_spec; eauto).
    rewrite E, String.eqb_refl in H. discriminate.
  - intros H. destruct (constant_binding n) as [[y v]|] eqn:E; [| reflexivity].
    destruct (String.eqb_spec y x) as [-> | Hne]; [| reflexivity].
    apply constant_binding_spec in E as (s & Hs & _). destruct (H s Hs).
Qed.

Lemma lookup_constants_step (m : gmap string string) n x :
  constants_step m n !! x
  = match constant_binding n with
    | Some (y, v) => if String.eqb y x then Some v else m !! x
    | None => m !! x
    end.
Proof.
  unfold constants_step. destruct (constant_binding n) as [[y v]|]; [| reflexivity].
  destruct (String.eqb_spec y x) as [-> | Hne].
  - apply lookup_insert_eq.
  - apply lookup_insert_ne. exact Hne.
Qed.

Lemma lookup_fold_not_rebound (post : list node) (m : gmap string string) x :
  (forall n, In n post -> rebinds x n = false) ->
  fold_left constants_step post m !! x = m !! x.
Proof.
  revert m. induction post as [|n post IH]; intros m H; simpl; [reflexivity |].
  rewrite IH by (intros k Hk; apply H; right; exact Hk).
  rewrite lookup_constants_step.
  pose proof (H n (or_introl eq_refl)) as Hn. unfold rebinds in Hn.
  destruct (constant_binding n) as [[y v]|]; [| reflexivity].
  rewrite Hn. reflexivity.
Qed.

Lemma lookup_fold_origin (body : list node) (m : gmap string string) x v :
  fold_left constants_step body m !! x = Some v ->
  m !! x = Some v
  \/ exists n, In n body /\ constant_binding n = Some (x, v).
Proof.
  revert m. induction body as [|n body IH]; intros m; simpl; [tauto |].
  intros H. apply IH in H as [H | (k & Hk & Ek)].
  - rewrite lookup_constants_step in H.
    destruct (constant_binding n) as [[y w]|] eqn:E; [| tauto].
    destruct (String.eqb_spec y x) as [-> | Hne]; [| tauto].
    injection H as ->. right. exists n. tauto.
  - right. exists k. tauto.
Qed.

(** The table holds, for a name, the trimmed literal of the last top-level
    statement that assigns it a string literal. *)
Lemma constants_last_assignment tree pre n post x s :
  node_body tree = pre ++ n :: post ->
  assigns_literal x s n ->
  (forall m s', In m post -> ~ assigns_literal x s' m) ->
  _extract_module_constants tree !! x = Some (PyStr.strip s).
Proof.
  intros Hbody Hn Hpost. unfold _extract_module_constants.
  rewrite Hbody, fold_left_app. simpl.
  rewrite lookup_fold_not_rebound.
  - rewrite lookup_constants_step.
    assert (E : constant_binding n = Some (x, PyStr.strip s))
      by (apply constant_binding_spec; eauto).
    rewrite E, String.eqb_refl. reflexivity.
  - intros m Hm. apply rebinds_spec. intros s'. apply Hpost. exact Hm.
Qed.

(** Every entry of the table comes from such a statement: other statements
    leave no trace. *)
Lemma constants_only_literals tree x v :
  _extract_module_constants tree !! x = Some v ->
  exists n s, In n (node_body tree) /\ assigns_literal x s n
              /\ v = PyStr.strip s.
Proof.
  intros H. apply lookup_fold_origin in H as [H | (n & Hn & E)].
  - rewrite lookup_empty in H. discriminate.
  - apply constant_binding_spec in E as (s & Hs & ->). eauto.
Qed.

Lemma description_not_declared constants cpost info :
  existsb (declares "description") cpost = false ->
  description (fold_left (attr_step constants) cpost info) = description info.
Proof.
  revert info. induction cpost as [|item cpost IH]; intros info; simpl;
    [reflexivity |].
  intros H. apply orb_false_elim in H as [Hitem Hpost].
  rewrite (IH _ Hpost).
  destruct item as [| | | |target ? ?| |]; try reflexivity.
  destruct target as [| a |]; try reflexivity.
  simpl in *. rewrite Hitem.
  destruct (String.eqb a "name"); reflexivity.
Qed.

(** C5, as stated, fails: [module_desc_twice] contains the top-level
    assignment [DESC = "hello"] and a class with [description: str = DESC],
    and the extracted description is [bye], the literal of the later
    assignment to [DESC]. *)
Lemma C5_counterexample :
  In (Assign [Name "DESC"] (str_lit "hello")) (node_body module_desc_twice)
  /\ In class_desc (node_body module_desc_twice)
  /\ _extract_module_constants module_desc_twice !! "DESC" = Some "bye"
  /\ Cactus.parse_tree module_desc_twice
     = [mk_tool_info (VStr "t") (VStr "bye") (VStr "") (VStr "")].
Proof. repeat split; simpl; tauto. Qed.

(** C5, amended: when the last top-level statement that assigns a string
    literal to the single name [x] assigns [s], the table maps [x] to [s]
    trimmed, and a class whose last [description] attribute is
    [description: ... = x] gets that value as description; every entry of
    the table is the trimmed literal of a plain or annotated top-level
    assignment to a single name. *)
Theorem C5_constant_resolution
  tree pre n post x s cname cpre ann cpost info :
  node_body tree = pre ++ n :: post ->
  assigns_literal x s n ->
  (forall m s', In m post -> ~ assigns_literal x s' m) ->
  existsb (declares "description") cpost = false ->
  _extract_tool_info
    (ClassDef cname
       (cpre ++ AnnAssign (Name "description") ann (Some (Name x)) :: cpost))
    (_extract_module_constants tree) = Some info ->
  _extract_module_constants tree !! x = Some (PyStr.strip s)
  /\ description info = VStr (PyStr.strip s)
  /\ (forall y v, _extract_module_constants tree !! y = Some v ->
        exists m s', In m (node_body tree) /\ assigns_literal y s' m
                     /\ v = PyStr.strip s').
Proof.
  intros Hbody Hn Hpost Hlast Hinfo.
  pose proof (constants_last_assignment tree pre n post x s Hbody Hn Hpost) as Hx.
  split; [exact Hx |]. split; [| intros y v; apply constants_only_literals].
  apply extract_tool_info_Some in Hinfo as [-> _].
  destruct (run_step_attrs
              (attributes (_extract_module_constants tree)
                 (cpre ++ AnnAssign (Name "description") ann (Some (Name x)) :: cpost))
              (cpre ++ AnnAssign (Name "description") ann (Some (Name x)) :: cpost))
    as [_ ->].
  unfold attributes. rewrite fold_left_app. simpl fold_left.
  rewrite (description_not_declared _ _ _ Hlast).
  simpl. rewrite Hx. reflexivity.
Qed.

Lemma C5_constant_resolution_witness :
  _extract_module_constants module_desc !! "DESC" = Some "hello"
  /\ description (mk_tool_info (VStr "t") (VStr "hello") (VStr "") (VStr ""))
     = VStr "hello".
Proof.
  assert (Hlater : forall m s',
             In m [class_desc] -> ~ assigns_literal "DESC" s' m).
  { intros m s' [<- | []] H. inversion H. }
  pose proof (C5_constant_resolution module_desc []
                (Assign [Name "DESC"] (str_lit "hello")) [class_desc]
                "DESC" "hello" "T" [annotated "name" (str_lit "t")]
                (Name "str") []
                (mk_tool_info (VStr "t") (VStr "hello") (VStr "") (VStr ""))
                eq_refl (assigns_plain "DESC" "hello" _) Hlater
                eq_refl eq_refl) as (H1 & H2 & _).
  exact (conj H1 H2).
Defined.

End ClassBased.

(** ** Text *)

Section Text.
Import PyStr.

Lemma lstrip_idem s : lstrip (lstrip s) = lstrip s.
Proof.
  induction s as [|c s IH]; simpl; [reflexivity |].
  destruct (isspace c) eqn:E; [exact IH |]. simpl. rewrite E. reflexivity.
Qed.

Lemma rstrip_idem s : rstrip (rstrip s) = rstrip s.
Proof.
  induction s as [|c s IH]; simpl; [reflexivity |].
  destruct (rstrip s) as [|a r] eqn:Er.
  - destruct (isspace c) eqn:E; simpl; [reflexivity |]. rewrite E. reflexivity.
  - change (rstrip (String c (String a r)) = String c (String a r)).
    simpl rstrip at 1. simpl in IH.
    destruct (rstrip r) as [|b r'] eqn:Err.
    + destruct (isspace a); [discriminate IH | rewrite IH; reflexivity].
    + rewrite IH. reflexivity.
Qed.

Lemma rstrip_tail c t : rstrip (String c t) = String c t -> rstrip t = t.
Proof.
  simpl. destruct (rstrip t) as [|a r].
  - destruct (isspace c); [discriminate |]. intros [= <-]. reflexivity.
  - intros [= <-]. reflexivity.
Qed.

Lemma rstrip_lstrip_fixed t : rstrip t = t -> rstrip (lstrip t) = lstrip t.
Proof.
  induction t as [|c t IH]; intros H; [reflexivity |].
  simpl lstrip. destruct (isspace c); [| exact H].
  apply IH. apply (rstrip_tail c). exact H.
Qed.

(** [s.strip().strip()] is [s.strip()]. *)
Lemma strip_idem s : strip (strip s) = strip s.
Proof.
  unfold strip.
  rewrite (rstrip_lstrip_fixed (rstrip s)) by apply rstrip_idem.
  apply lstrip_idem.
Qed.

Lemma startswith_head p c q s :
  startswith (String p q) s = true ->
  c <> p -> forall q', startswith (String c q') s = false.
Proof.
  unfold startswith. destruct s as [|b s]; [discriminate |]. simpl.
  destruct (ascii_dec p b) as [<- |]; [| discriminate].
  intros _ Hne q'. destruct (ascii_dec c p); [contradiction | reflexivity].
Qed.

(** The methods on a few texts. *)
Example strip_both_sides : strip "  a b  " = "a b".
Proof. reflexivity. Qed.

Example strip_line_breaks : strip (String NL (String TAB "x:" ++ nl)) = "x:".
Proof. reflexivity. Qed.

Example split_keeps_empty_fields : split ":"%char "a:b:" = ["a"; "b"; ""].
Proof. reflexivity. Qed.

Example split_empty : split NL "" = [""].
Proof. reflexivity. Qed.

Example replace_label : replace "Name:" "" "Name: Foo Name:x" = " Foo x".
Proof. reflexivity. Qed.

Example expandtabs_to_column_8 :
  expandtabs (String "a" (String TAB "b")) = "a       b".
Proof. reflexivity. Qed.

Example cleandoc_removes_margin :
  Ast.cleandoc
    (join nl [""; "    Run it."; ""; "    Parameters"; "    ----------";
              "      x : int"; "    "])
  = join nl ["Run it."; ""; "Parameters"; "----------"; "  x : int"].
Proof. reflexivity. Qed.

End Text.

(** ** The function-based extractor *)

Section FunctionBased.
Import Ast ChemToolBench Examples.
Local Open Scope list_scope.

Abbreviation start := (mk_doc_state ∅ NoSection []).

Lemma fold_doc_step (raws : list string) (st : doc_state) :
  fold_left doc_step raws st = fold_left doc_line (map PyStr.strip raws) st.
Proof.
  revert st. induction raws as [|raw raws IH]; intros st; simpl;
    [reflexivity | apply IH].
Qed.

Lemma scan_docstring_lines d :
  scan_docstring d = fold_left doc_line (stripped_lines d) start.
Proof. apply fold_doc_step. Qed.

Lemma stripped_lines_stripped d l :
  In l (stripped_lines d) -> PyStr.strip l = l.
Proof.
  unfold stripped_lines. intros H.
  apply in_map_iff in H as (raw & <- & _). apply strip_idem.
Qed.

Lemma last_In {A : Type} (l : list A) (d : A) : l <> [] -> In (List.last l d) l.
Proof.
  induction l as [|x [|y l] IH]; intros H; [contradiction | left; reflexivity |].
  right. apply IH. discriminate.
Qed.

(** A line that starts with [Returns:] starts with no other label. *)
Lemma returns_heading l :
  PyStr.startswith "Returns:" l = true ->
  PyStr.startswith "Name:" l = false
  /\ PyStr.startswith "Description:" l = false
  /\ PyStr.startswith "Parameters:" l = false.
Proof.
  intros H.
  repeat split; (eapply startswith_head; [exact H | discriminate]).
Qed.

Lemma doc_line_returns_heading st l :
  PyStr.startswith "Returns:" l = true ->
  doc_line st l = mk_doc_state (doc_parts st) SecReturns (parameters st).
Proof.
  intros H. destruct (returns_heading l H) as (Hn & Hd & Hp).
  unfold doc_line. rewrite Hn, Hd, Hp, H. reflexivity.
Qed.

Lemma doc_line_plain st l :
  is_label l = false ->
  doc_line st l
  = if is_parameters (current_section st) && captured l then
      mk_doc_state (doc_parts st) (current_section st)
        (parameters st ++ [PyStr.strip l])
    else if is_returns (current_section st) && captured l then
      mk_doc_state (<["returns" := PyStr.strip l]> (doc_parts st))
        (current_section st) (parameters st)
    else st.
Proof.
  unfold is_label. intros H.
  apply orb_false_elim in H as [H Hr].
  apply orb_false_elim in H as [H Hp].
  apply orb_false_elim in H as [Hn Hd].
  unfold doc_line, captured. rewrite Hn, Hd, Hp, Hr, !andb_assoc. reflexivity.
Qed.

(** Inside a Returns section each captured line replaces the entry
    [returns]. *)
Lemma fold_returns_section (sect : list string) :
  forall st,
    Forall (fun l => is_label l = false) sect ->
    current_section st = SecReturns ->
    current_section (fold_left doc_line sect st) = SecReturns
    /\ doc_parts (fold_left doc_line sect st) !! "returns"
       = match List.filter captured sect with
         | [] => doc_parts st !! "returns"
         | _ => Some (PyStr.strip (List.last (List.filter captured sect) ""))
         end.
Proof.
  induction sect as [|l sect IH]; intros st HF Hsec; simpl.
  - split; [exact Hsec | reflexivity].
  - inversion HF as [|? ? Hl HF']; subst.
    rewrite (doc_line_plain st l Hl), Hsec. simpl.
    destruct (captured l) eqn:E.
    + match goal with
      | |- context [fold_left doc_line sect ?st1] =>
          destruct (IH st1 HF' eq_refl) as [H1 H2]
      end.
      split; [exact H1 |]. rewrite H2. simpl doc_parts.
      destruct (List.filter captured sect) as [|a f]; simpl.
      * apply lookup_insert_eq.
      * reflexivity.
    + apply (IH st HF' Hsec).
Qed.

Lemma returns_not_name : "name" <> "returns".
Proof. discriminate. Qed.

Lemma returns_not_description : "description" <> "returns".
Proof. discriminate. Qed.

Lemma doc_line_no_returns st l :
  PyStr.startswith "Returns:" l = false ->
  is_returns (current_section st) = false ->
  is_returns (current_section (doc_line st l)) = false
  /\ doc_parts (doc_line st l) !! "returns" = doc_parts st !! "returns".
Proof.
  intros H Hs. unfold doc_line.
  destruct (PyStr.startswith "Name:" l);
    [simpl; split; [reflexivity | apply lookup_insert_ne, returns_not_name] |].
  destruct (PyStr.startswith "Description:" l);
    [simpl; split;
     [reflexivity | apply lookup_insert_ne, returns_not_description] |].
  destruct (PyStr.startswith "Parameters:" l); [simpl; split; reflexivity |].
  rewrite H, Hs. simpl.
  destruct (is_parameters (current_section st) && PyStr.nonempty l
            && PyStr.contains_char ":" l); simpl; split; auto.
Qed.

Lemma fold_no_returns_heading (ls : list string) :
  forall st,
    Forall (fun l => PyStr.startswith "Returns:" l = false) ls ->
    is_returns (current_section st) = false ->
    is_returns (current_section (fold_left doc_line ls st)) = false
    /\ doc_parts (fold_left doc_line ls st) !! "returns"
       = doc_parts st !! "returns".
Proof.
  induction ls as [|l ls IH]; intros st HF Hs; simpl; [split; auto |].
  inversion HF as [|? ? Hl HF']; subst.
  destruct (doc_line_no_returns st l Hl Hs) as [H1 H2].
  destruct (IH (doc_line st l) HF' H1) as [H3 H4].
  split; [exact H3 | congruence].
Qed.

(** A label other than [Returns:] closes the Returns section. *)
Lemma doc_line_label_closes st l :
  is_label l = true ->
  PyStr.startswith "Returns:" l = false ->
  is_returns (current_section (doc_line st l)) = false
  /\ doc_parts (doc_line st l) !! "returns" = doc_parts st !! "returns".
Proof.
  unfold is_label, doc_line. intros H Hr.
  destruct (PyStr.startswith "Name:" l);
    [simpl; split; [reflexivity | apply lookup_insert_ne, returns_not_name] |].
  destruct (PyStr.startswith "Description:" l);
    [simpl; split;
     [reflexivity | apply lookup_insert_ne, returns_not_description] |].
  destruct (PyStr.startswith "Parameters:" l); [simpl; split; reflexivity |].
  rewrite Hr in H. discriminate.
Qed.

Lemma fold_after_section (rest : list string) st :
  match rest with [] => True | l :: _ => is_label l = true end ->
  Forall (fun l => PyStr.startswith "Returns:" l = false) rest ->
  doc_parts (fold_left doc_line rest st) !! "returns"
  = doc_parts st !! "returns".
Proof.
  destruct rest as [|l rest]; [reflexivity |]. intros Hl HF. simpl.
  inversion HF as [|? ? Hr HF']; subst.
  destruct (doc_line_label_closes st l Hl Hr) as [H1 H2].
  destruct (fold_no_returns_heading rest (doc_line st l) HF' H1) as [_ H3].
  congruence.
Qed.

Lemma parse_docstring_returns d :
  parse_docstring d !! "returns" = doc_parts (scan_docstring d) !! "returns".
Proof.
  unfold parse_docstring. destruct (parameters (scan_docstring d));
    [reflexivity | apply lookup_insert_ne; discriminate].
Qed.

Lemma parse_function_node_Some fname fargs returns body d info :
  get_docstring (FunctionDef fname fargs returns body) = Some d ->
  parse_function_node (FunctionDef fname fargs returns body) = Some info ->
  PyStr.nonempty d = true
  /\ info
     = mk_tool_info (VStr fname)
         (get_str (parse_docstring d) "description" (VStr ""))
         (get_str (parse_docstring d) "parameters"
            (VStr (PyStr.join PyStr.nl
                     (map render_param (map param_entry (args fargs))))))
         (get_str (parse_docstring d) "returns"
            match returns with
            | Some r => VStr (unparse r)
            | None => VNone
            end).
Proof.
  intros Hdoc. unfold parse_function_node. rewrite Hdoc.
  destruct (PyStr.nonempty d); [| discriminate].
  intros [= <-]. split; reflexivity.
Qed.

(** Without a line that starts with [Parameters:] no parameter line is
    captured. *)
Lemma doc_line_no_parameters st l :
  PyStr.startswith "Parameters:" l = false ->
  is_parameters (current_section st) = false ->
  is_parameters (current_section (doc_line st l)) = false
  /\ parameters (doc_line st l) = parameters st.
Proof.
  intros H Hs. unfold doc_line.
  destruct (PyStr.startswith "Name:" l); [split; reflexivity |].
  destruct (PyStr.startswith "Description:" l); [split; reflexivity |].
  rewrite H.
  destruct (PyStr.startswith "Returns:" l); [split; reflexivity |].
  rewrite Hs. simpl.
  destruct (is_returns (current_section st) && PyStr.nonempty l
            && PyStr.contains_char ":" l); simpl; split; auto.
Qed.

Lemma fold_no_parameters (ls : list string) :
  forall st,
    Forall (fun l => PyStr.startswith "Parameters:" l = false) ls ->
    is_parameters (current_section st) = false ->
    is_parameters (current_section (fold_left doc_line ls st)) = false
    /\ parameters (fold_left doc_line ls st) = parameters st.
Proof.
  induction ls as [|l ls IH]; intros st HF Hs; simpl; [split; auto |].
  inversion HF as [|? ? Hl HF']; subst.
  destruct (doc_line_no_parameters st l Hl Hs) as [H1 H2].
  destruct (IH (doc_line st l) HF' H1) as [H3 H4].
  split; [exact H3 | congruence].
Qed.

(** The loop never puts the key [parameters] into [doc_parts]. *)
Lemma doc_line_parameters_key st l :
  doc_parts (doc_line st l) !! "parameters" = doc_parts st !! "parameters".
Proof.
  unfold doc_line.
  repeat match goal with
         | |- context [if ?b then _ else _] => destruct b
         end; simpl; try reflexivity; apply lookup_insert_ne; discriminate.
Qed.

Lemma fold_parameters_key (ls : list string) st :
  doc_parts (fold_left doc_line ls st) !! "parameters"
  = doc_parts st !! "parameters".
Proof.
  revert st. induction ls as [|l ls IH]; intros st; simpl; [reflexivity |].
  rewrite IH. apply doc_line_parameters_key.
Qed.

Lemma parse_docstring_no_parameters d :
  Forall (fun l => PyStr.startswith "Parameters:" l = false) (stripped_lines d) ->
  parse_docstring d !! "parameters" = None.
Proof.
  intros HF. unfold parse_docstring. rewrite scan_docstring_lines.
  destruct (fold_no_parameters (stripped_lines d) start HF eq_refl) as [_ ->].
  simpl. rewrite fold_parameters_key. apply lookup_empty.
Qed.

(** The docstring of the specification's example of label parsing. *)
Example label_parsing :
  let doc := parse_docstring
               (doc_of ["Name: Foo"; "Description: Does X"; "Parameters:";
                        "  a (int): value"; "Returns:";
                        "  result (str): value"]) in
  doc !! "name" = Some "Foo"
  /\ doc !! "description" = Some "Does X"
  /\ doc !! "parameters" = Some "a (int): value"
  /\ doc !! "returns" = Some "result (str): value".
Proof. repeat split. Qed.

(** C7, as stated, fails: for [def f(self, a: int)] whose docstring is
    [Description: d] the claim gives [inputs] as the one line [a (int)];
    the record has two lines, [self (None)] and [a (int)]. *)
Lemma C7_counterexample :
  get_docstring function_described = Some "Description: d"
  /\ ChemToolBench.parse_tree (Module [function_described])
     = [mk_tool_info (VStr "f") (VStr "d")
          (VStr (doc_of ["self (None)"; "a (int)"])) VNone]
  /\ doc_of ["self (None)"; "a (int)"] <> "a (int)".
Proof. repeat split. discriminate. Qed.

(** C7, amended: when no line of the docstring starts with [Parameters:],
    the record's [inputs] is the newline-joined rendering of every entry of
    the declared positional parameter list, in order, the receiver
    included; an annotated parameter is rendered [name (Type)]. *)
Theorem C7_inputs_from_parameter_list fname fargs returns body d info :
  get_docstring (FunctionDef fname fargs returns body) = Some d ->
  Forall (fun l => PyStr.startswith "Parameters:" l = false) (stripped_lines d) ->
  parse_function_node (FunctionDef fname fargs returns body) = Some info ->
  inputs info
  = VStr (PyStr.join PyStr.nl (map render_param (map param_entry (args fargs))))
  /\ (forall a t, annotation a = Some t ->
        render_param (param_entry a)
        = (arg_name a ++ " (" ++ unparse t ++ ")")%string).
Proof.
  intros Hdoc HF Hinfo.
  apply (parse_function_node_Some _ _ _ _ _ _ Hdoc) in Hinfo as [_ ->].
  split.
  - simpl. unfold get_str. rewrite (parse_docstring_no_parameters d HF).
    reflexivity.
  - intros a t Ha. unfold render_param, param_entry. rewrite Ha. reflexivity.
Qed.

Lemma C7_inputs_from_parameter_list_witness :
  inputs (mk_tool_info (VStr "f") (VStr "d")
            (VStr (doc_of ["self (None)"; "a (int)"])) VNone)
  = VStr (doc_of ["self (None)"; "a (int)"]).
Proof.
  apply (C7_inputs_from_parameter_list "f"
           (positional [mk_arg "self" None; mk_arg "a" (Some (Name "int"))] [])
           None [Expr (str_lit "Description: d"); pass_stmt]
           "Description: d").
  - reflexivity.
  - repeat constructor.
  - reflexivity.
Defined.

(** C8: when a Returns section of the docstring (the lines after a line
    that starts with [Returns:], up to the next label or the end) holds
    two or more non-empty lines with a colon, and no later line starts
    with [Returns:], the record's [outputs] is the last of these lines. *)
Theorem C8_returns_keeps_last_line
  fname fargs returns body d pre hdr sect rest info :
  get_docstring (FunctionDef fname fargs returns body) = Some d ->
  stripped_lines d = pre ++ hdr :: sect ++ rest ->
  PyStr.startswith "Returns:" hdr = true ->
  Forall (fun l => is_label l = false) sect ->
  match rest with [] => True | l :: _ => is_label l = true end ->
  Forall (fun l => PyStr.startswith "Returns:" l = false) rest ->
  2 <= length (List.filter captured sect) ->
  parse_function_node (FunctionDef fname fargs returns body) = Some info ->
  outputs info = VStr (List.last (List.filter captured sect) "").
Proof.
  intros Hdoc Hlines Hhdr Hsect Hnext Hrest Hlen Hinfo.
  apply (parse_function_node_Some _ _ _ _ _ _ Hdoc) in Hinfo as [_ ->].
  simpl. unfold get_str.
  rewrite parse_docstring_returns, scan_docstring_lines, Hlines.
  rewrite fold_left_app. simpl fold_left. rewrite fold_left_app.
  rewrite (fold_after_section rest _ Hnext Hrest).
  rewrite (doc_line_returns_heading _ hdr Hhdr).
  match goal with
  | |- context [fold_left doc_line sect ?st1] =>
      destruct (fold_returns_section sect st1 Hsect eq_refl) as [_ ->]
  end.
  destruct (List.filter captured sect) as [|a f] eqn:Ef; [simpl in Hlen; lia |].
  f_equal. apply (stripped_lines_stripped d).
  assert (Hin : In (List.last (a :: f) "") (List.filter captured sect))
    by (rewrite Ef; apply last_In; discriminate).
  apply filter_In in Hin as [Hin _].
  rewrite Hlines. apply in_or_app. right. right.
  apply in_or_app. left. exact Hin.
Qed.

Lemma C8_returns_keeps_last_line_witness :
  outputs (mk_tool_info (VStr "g") (VStr "Does X") (VStr "a (None)")
             (VStr "second (int): two"))
  = VStr "second (int): two".
Proof.
  apply (C8_returns_keeps_last_line "g" (positional [mk_arg "a" None] [])
           (Some (Name "str")) [Expr (str_lit returns_doc); pass_stmt]
           returns_doc ["Description: Does X"] "Returns:"
           ["first (str): one"; "second (int): two"] []).
  - reflexivity.
  - reflexivity.
  - reflexivity.
  - repeat constructor.
  - exact I.
  - constructor.
  - simpl. lia.
  - reflexivity.
Defined.

(** C10: the function [function_described] has a docstring with a
    Description and no Returns line, and no return annotation; its record's
    [outputs] is [None], not a string. *)
Theorem C10_outputs_may_be_None :
  exists fname fargs body d info,
    get_docstring (FunctionDef fname fargs None body) = Some d
    /\ is_Some (parse_docstring d !! "description")
    /\ parse_docstring d !! "returns" = None
    /\ parse_function_node (FunctionDef fname fargs None body) = Some info
    /\ ChemToolBench.parse_tree (Module [FunctionDef fname fargs None body])
       = [info]
    /\ outputs info = VNone
    /\ is_str (outputs info) = false.
Proof.
  exists "f",
    (positional [mk_arg "self" None; mk_arg "a" (Some (Name "int"))] []),
    [Expr (str_lit "Description: d"); pass_stmt], "Description: d".
  eexists. repeat split. vm_compute. eauto.
Qed.

End FunctionBased.

(** ** Errors *)

Section Errors.
Import Ast Examples MoreExamples Unparsed.
Local Open Scope list_scope.






(** *** When [ast.unparse] raises *)













End Errors.


(** ** More on the constant table and the class attributes *)

Section ClassAttributes.
Import Ast Cactus Examples MoreExamples Shape.
Local Open Scope list_scope.

(** X1: every value of the constant table is trimmed: stripping it again
    changes nothing. *)
Theorem constants_are_trimmed tree x v :
  _extract_module_constants tree !! x = Some v -> PyStr.strip v = v.
Proof.
  intros H. apply lookup_fold_origin in H as [H | (n & _ & E)].
  - rewrite lookup_empty in H. discriminate.
  - apply constant_binding_spec in E as (s & _ & ->). apply strip_idem.
Qed.

Lemma constants_are_trimmed_witness : PyStr.strip "hello" = "hello".
Proof.
  apply (constants_are_trimmed module_padded "DESC" "hello"). reflexivity.
Defined.

Lemma lookup_fold_kept (body : list node) (m : gmap string string) x :
  is_Some (m !! x) -> is_Some (fold_left constants_step body m !! x).
Proof.
  revert m. induction body as [|n body IH]; intros m H; simpl; [exact H |].
  apply IH. rewrite lookup_constants_step.
  destruct (constant_binding n) as [[y v]|]; [| exact H].
  destruct (String.eqb y x); [eexists; reflexivity | exact H].
Qed.

Lemma lookup_fold_bound (body : list node) (m : gmap string string) n x v :
  In n body -> constant_binding n = Some (x, v) ->
  is_Some (fold_left constants_step body m !! x).
Proof.
  revert m. induction body as [|k body IH]; intros m; simpl; [tauto |].
  intros [-> | Hin] E.
  - apply lookup_fold_kept. rewrite lookup_constants_step, E, String.eqb_refl.
    eexists. reflexivity.
  - apply IH; assumption.
Qed.

(** X2: a name is in the constant table exactly when some top-level
    statement assigns a string literal to it as its single target; other
    top-level statements add nothing. *)
Theorem constants_domain tree x :
  is_Some (_extract_module_constants tree !! x)
  <-> exists n s, In n (node_body tree) /\ assigns_literal x s n.
Proof.
  split.
  - intros [v H]. apply constants_only_literals in H as (n & s & Hn & Hs & _).
    eauto.
  - intros (n & s & Hn & Hs).
    apply (lookup_fold_bound _ _ n x (PyStr.strip s) Hn).
    apply constant_binding_spec. eauto.
Qed.

Lemma name_left_unset constants body info :
  forallb (leaves_unset constants "name") body = true ->
  name (fold_left (attr_step constants) body info) = name info.
Proof.
  revert info. induction body as [|item body IH]; intros info; simpl;
    [reflexivity |].
  intros H. apply andb_prop in H as [Hitem Hbody]. rewrite (IH _ Hbody).
  destruct item as [| | | |target ? value| |]; try reflexivity.
  destruct target as [| a |]; try reflexivity.
  simpl in *. destruct (String.eqb a "name"); simpl in Hitem.
  - simpl. unfold resolve. unfold unresolved in Hitem.
    destruct value as [[| id |]|]; try reflexivity; try discriminate.
    destruct (constants !! id); [discriminate | reflexivity].
  - destruct (String.eqb a "description"); reflexivity.
Qed.

Lemma description_left_unset constants body info :
  forallb (leaves_unset constants "description") body = true ->
  description (fold_left (attr_step constants) body info) = description info.
Proof.
  revert info. induction body as [|item body IH]; intros info; simpl;
    [reflexivity |].
  intros H. apply andb_prop in H as [Hitem Hbody]. rewrite (IH _ Hbody).
  destruct item as [| | | |target ? value| |]; try reflexivity.
  destruct target as [| a |]; try reflexivity.
  simpl in *. destruct (String.eqb a "name"); [reflexivity |].
  destruct (String.eqb a "description"); simpl in Hitem; [| reflexivity].
  simpl. unfold resolve. unfold unresolved in Hitem.
  destruct value as [[| id |]|]; try reflexivity; try discriminate.
  destruct (constants !! id); [discriminate | reflexivity].
Qed.

(** X3: a class is skipped when no annotated assignment gives [name] a
    literal or a known constant, and likewise for [description]; a plain
    assignment [name = ...], an annotation without a value and an unknown
    identifier do not count. *)
Theorem class_without_attribute_is_skipped cname body constants :
  forallb (leaves_unset constants "name") body = true
  \/ forallb (leaves_unset constants "description") body = true ->
  _extract_tool_info (ClassDef cname body) constants = None.
Proof.
  intros H. unfold _extract_tool_info. simpl node_body.
  fold (attributes constants body).
  destruct (run_step_attrs (attributes constants body) body) as [-> ->].
  unfold attributes. destruct H as [H | H].
  - rewrite (name_left_unset _ _ _ H). reflexivity.
  - rewrite (description_left_unset _ _ _ H). simpl.
    rewrite andb_false_r. reflexivity.
Qed.

Lemma class_without_attribute_is_skipped_witness :
  _extract_tool_info (ClassDef "T" class_plain_name) ∅ = None.
Proof.
  apply class_without_attribute_is_skipped. left. reflexivity.
Defined.

Lemma attr_step_strings constants info item :
  string_attribute item = true ->
  is_str (name info) = true -> is_str (description info) = true ->
  is_str (name (attr_step constants info item)) = true
  /\ is_str (description (attr_step constants info item)) = true.
Proof.
  intros Hitem Hn Hd.
  destruct item as [| | | |target ? value| |]; try (split; assumption).
  destruct target as [| a |]; try (split; assumption).
  simpl in *. destruct (String.eqb a "name"); simpl in *.
  - split; [| exact Hd]. unfold resolve.
    destruct value as [[v ?| id |]|]; try assumption.
    destruct (constants !! id); [reflexivity | assumption].
  - destruct (String.eqb a "description"); simpl in *; [| split; assumption].
    split; [exact Hn |]. unfold resolve.
    destruct value as [[v ?| id |]|]; try assumption.
    destruct (constants !! id); [reflexivity | assumption].
Qed.

Lemma fold_attr_step_strings constants body info :
  forallb string_attribute body = true ->
  is_str (name info) = true -> is_str (description info) = true ->
  is_str (name (fold_left (attr_step constants) body info)) = true
  /\ is_str (description (fold_left (attr_step constants) body info)) = true.
Proof.
  revert info. induction body as [|item body IH]; intros info H Hn Hd; simpl.
  - split; assumption.
  - apply andb_prop in H as [Hitem Hbody].
    destruct (attr_step_strings constants info item Hitem Hn Hd) as [Hn' Hd'].
    apply IH; assumption.
Qed.

(** X4: when every literal that the class gives to [name] or [description]
    is a string literal, the emitted record's name and description are
    non-empty strings. *)
Theorem string_literals_give_string_fields cname body constants info :
  forallb string_attribute body = true ->
  _extract_tool_info (ClassDef cname body) constants = Some info ->
  exists n d, name info = VStr n /\ description info = VStr d
              /\ n <> EmptyString /\ d <> EmptyString.
Proof.
  intros Hbody Hinfo.
  apply extract_tool_info_Some in Hinfo as (-> & Hn & Hd).
  destruct (run_step_attrs (attributes constants body) body) as [En Ed].
  rewrite En in Hn. rewrite Ed in Hd.
  destruct (fold_attr_step_strings constants body
              (mk_tool_info (VStr "") (VStr "") (VStr "") (VStr ""))
              Hbody eq_refl eq_refl) as [Sn Sd].
  fold (attributes constants body) in Sn, Sd.
  rewrite En, Ed.
  destruct (name (attributes constants body)) as [| | | | n | |];
    try discriminate.
  destruct (description (attributes constants body)) as [| | | | d | |];
    try discriminate.
  exists n, d. repeat split; intros ->; discriminate.
Qed.

Lemma string_literals_give_string_fields_witness :
  exists n d,
    name (mk_tool_info (VStr "t") (VStr "d") (VStr "") (VStr "")) = VStr n
    /\ description (mk_tool_info (VStr "t") (VStr "d") (VStr "") (VStr ""))
       = VStr d
    /\ n <> EmptyString /\ d <> EmptyString.
Proof.
  apply (string_literals_give_string_fields "T"
           (node_body class_without_run) ∅); reflexivity.
Defined.

Lemma run_step_io_strings info body :
  is_str (inputs info) = true -> is_str (outputs info) = true ->
  is_str (inputs (run_step info body)) = true
  /\ is_str (outputs (run_step info body)) = true.
Proof.
  intros Hi Ho. induction body as [|item body IH]; simpl; [split; assumption |].
  destruct item; try exact IH.
  destruct (String.eqb _ _); [| exact IH].
  destruct (_parse_docstring _ _ _). split; reflexivity.
Qed.

(** X5: [inputs] and [outputs] of every record of the class-based
    extractor are strings, also when the class has no method [_run]. *)
Theorem class_records_have_text_fields tree info :
  In info (Cactus.parse_tree tree) ->
  is_str (inputs info) = true /\ is_str (outputs info) = true.
Proof.
  unfold Cactus.parse_tree. generalize (_extract_module_constants tree).
  intros constants. induction (walk tree) as [|n nodes IH]; simpl; [tauto |].
  destruct (is_ClassDef n) eqn:Hc; [| exact IH].
  destruct (_extract_tool_info n constants) as [tool|] eqn:E; [| exact IH].
  intros [<- | Hin]; [| apply IH; exact Hin].
  destruct n; try discriminate.
  apply extract_tool_info_Some in E as [-> _].
  destruct (attributes_io constants body) as [Hi Ho].
  apply run_step_io_strings; [rewrite Hi | rewrite Ho]; reflexivity.
Qed.

Lemma class_records_have_text_fields_witness :
  is_str (inputs (mk_tool_info (VInt 5) (VStr "d") (VStr "") (VStr ""))) = true
  /\ is_str (outputs (mk_tool_info (VInt 5) (VStr "d") (VStr "") (VStr "")))
     = true.
Proof.
  apply (class_records_have_text_fields (Module [class_int_name])).
  left. reflexivity.
Defined.

End ClassAttributes.


(** ** More on the docstring of [_run] *)

Section RunDocstring.
Import Ast Cactus Examples MoreExamples Shape.
Local Open Scope list_scope.

Abbreviation first_state := (Cactus.mk_doc_state NoSection [] []).

(** What one line does to the two lists: nothing, or it is appended to one
    of them, and then it has the shape of a captured line. *)
Lemma doc_line_effect st line :
  (doc_inputs (doc_line st line) = doc_inputs st
   \/ (doc_inputs (doc_line st line) = doc_inputs st ++ [line]
       /\ PyStr.nonempty line = true /\ PyStr.contains_char ":" line = true
       /\ PyStr.startswith "-" line = false /\ is_heading line = false))
  /\ (doc_outputs (doc_line st line) = doc_outputs st
      \/ (doc_outputs (doc_line st line) = doc_outputs st ++ [line]
          /\ PyStr.nonempty line = true
          /\ PyStr.startswith "-" line = false /\ is_heading line = false)).
Proof.
  unfold doc_line, is_heading.
  destruct (PyStr.startswith "Parameters" line) eqn:Hp; [simpl; tauto |].
  destruct (PyStr.startswith "Returns" line) eqn:Hr; [simpl; tauto |].
  destruct (PyStr.startswith "---" line); [tauto |].
  destruct (Cactus.current_section st); [tauto | |].
  - destruct (PyStr.nonempty line) eqn:Hn; [| simpl; tauto].
    destruct (PyStr.startswith "-" line) eqn:Hd; [simpl; tauto |].
    destruct (PyStr.contains_char ":" line) eqn:Hc; simpl; tauto.
  - destruct (PyStr.nonempty line) eqn:Hn; [| simpl; tauto].
    destruct (PyStr.startswith "-" line) eqn:Hd; simpl; tauto.
Qed.

Lemma fold_doc_line_captures (lines : list string) :
  forall st,
    Forall (fun l => PyStr.strip l = l) lines ->
    Forall parameter_line (doc_inputs st) ->
    Forall return_line (doc_outputs st) ->
    Forall parameter_line (doc_inputs (fold_left doc_line lines st))
    /\ Forall return_line (doc_outputs (fold_left doc_line lines st)).
Proof.
  induction lines as [|l lines IH]; intros st HS Hi Ho; simpl; [tauto |].
  inversion HS as [|? ? Hl HS']; subst.
  destruct (doc_line_effect st l) as [Ei Eo].
  apply IH; [exact HS' | |].
  - destruct Ei as [-> | (-> & ? & ? & ? & ?)]; [exact Hi |].
    apply Forall_app. split; [exact Hi |].
    constructor; [| constructor]. unfold parameter_line. tauto.
  - destruct Eo as [-> | (-> & ? & ? & ?)]; [exact Ho |].
    apply Forall_app. split; [exact Ho |].
    constructor; [| constructor]. unfold return_line. tauto.
Qed.

Lemma cactus_fold_doc_step (raws : list string) (st : Cactus.doc_state) :
  fold_left doc_step raws st = fold_left doc_line (map PyStr.strip raws) st.
Proof.
  revert st. induction raws as [|raw raws IH]; intros st; simpl;
    [reflexivity | apply IH].
Qed.

Lemma map_strip_stripped (raws : list string) :
  Forall (fun l => PyStr.strip l = l) (map PyStr.strip raws).
Proof.
  induction raws as [|raw raws IH]; simpl; constructor;
    [apply strip_idem | exact IH].
Qed.

(** X6: every line captured from the docstring of [_run] is trimmed and
    non-empty, starts neither with a dash nor with [Parameters] or
    [Returns]; a captured parameter line also holds a colon.  So an
    underline of dashes is never part of [inputs] or [outputs]. *)
Theorem captured_lines_are_content d :
  Forall parameter_line (doc_inputs (scan_docstring d))
  /\ Forall return_line (doc_outputs (scan_docstring d)).
Proof.
  unfold scan_docstring. rewrite cactus_fold_doc_step.
  apply fold_doc_line_captures; [apply map_strip_stripped | |]; constructor.
Qed.

Lemma fold_doc_line_sublist (lines : list string) :
  forall st,
    exists ins outs,
      doc_inputs (fold_left doc_line lines st) = doc_inputs st ++ ins
      /\ doc_outputs (fold_left doc_line lines st) = doc_outputs st ++ outs
      /\ sublist ins lines /\ sublist outs lines.
Proof.
  induction lines as [|l lines IH]; intros st; simpl.
  - exists [], []. rewrite !app_nil_r. repeat split; constructor.
  - destruct (IH (doc_line st l)) as (ins & outs & Ei & Eo & Si & So).
    destruct (doc_line_effect st l) as [Hi Ho].
    destruct Hi as [Hi | (Hi & _)], Ho as [Ho | (Ho & _)].
    + exists ins, outs. rewrite Ei, Eo, Hi, Ho.
      repeat split; apply sublist_cons; assumption.
    + exists ins, (l :: outs). rewrite Ei, Eo, Hi, Ho, <- app_assoc.
      repeat split; [apply sublist_cons | apply sublist_skip]; assumption.
    + exists (l :: ins), outs. rewrite Ei, Eo, Hi, Ho, <- app_assoc.
      repeat split; [apply sublist_skip | apply sublist_cons]; assumption.
    + exists (l :: ins), (l :: outs). rewrite Ei, Eo, Hi, Ho, <- !app_assoc.
      repeat split; apply sublist_skip; assumption.
Qed.

(** X7: the captured parameter lines, and the captured return lines, are
    lines of the docstring (trimmed), in the order of the docstring. *)
Theorem captured_lines_keep_order d :
  sublist (doc_inputs (scan_docstring d))
    (map PyStr.strip (PyStr.split PyStr.NL d))
  /\ sublist (doc_outputs (scan_docstring d))
       (map PyStr.strip (PyStr.split PyStr.NL d)).
Proof.
  unfold scan_docstring. rewrite cactus_fold_doc_step.
  destruct (fold_doc_line_sublist (map PyStr.strip (PyStr.split PyStr.NL d))
              first_state) as (ins & outs & -> & -> & Si & So).
  simpl. tauto.
Qed.

Lemma doc_line_before_heading st line :
  Cactus.current_section st = NoSection ->
  is_heading line = false ->
  doc_line st line = st.
Proof.
  unfold doc_line, is_heading. intros Hs H.
  apply orb_false_elim in H as [-> ->].
  destruct (PyStr.startswith "---" line); [reflexivity |].
  rewrite Hs. reflexivity.
Qed.

(** X8: the lines before the first line that starts with [Parameters] or
    [Returns] contribute nothing; a docstring without such a line gives
    empty [inputs] and [outputs]. *)
Theorem text_before_first_heading_is_ignored d pre rest fargs returns :
  PyStr.nonempty d = true ->
  PyStr.split PyStr.NL d = pre ++ rest ->
  Forall (fun raw => is_heading (PyStr.strip raw) = false) pre ->
  scan_docstring d = fold_left doc_step rest first_state
  /\ (rest = [] -> _parse_docstring (Some d) fargs returns
                   = (EmptyString, EmptyString)).
Proof.
  intros Hd Hsplit Hpre.
  assert (E : scan_docstring d = fold_left doc_step rest first_state).
  { unfold scan_docstring. rewrite Hsplit, fold_left_app. f_equal.
    clear Hsplit. induction Hpre as [|raw pre Hraw _ IH]; simpl; [reflexivity |].
    unfold doc_step at 2.
    rewrite (doc_line_before_heading first_state _ eq_refl Hraw). exact IH. }
  split; [exact E |]. intros ->.
  unfold _parse_docstring. rewrite Hd, E. reflexivity.
Qed.

Lemma text_before_first_heading_is_ignored_witness :
  _parse_docstring (Some free_text) (positional [] []) None
  = (EmptyString, EmptyString).
Proof.
  refine (proj2 (text_before_first_heading_is_ignored free_text
                   ["Run the tool."; "x: the input"] []
                   (positional [] []) None eq_refl eq_refl _) eq_refl).
  repeat constructor.
Defined.

End RunDocstring.


(** ** More on the labelled docstrings *)

Section LabelledDocstring.
Import Ast ChemToolBench Examples MoreExamples Shape.
Local Open Scope list_scope.

Abbreviation start_state := (ChemToolBench.mk_doc_state ∅ NoSection []).

Lemma doc_line_keys st line k :
  is_Some (doc_parts (doc_line st line) !! k) ->
  is_Some (doc_parts st !! k)
  \/ k = "name" \/ k = "description" \/ k = "returns".
Proof.
  unfold doc_line.
  repeat match goal with
         | |- context [if ?b then _ else _] => destruct b
         end; simpl; try tauto;
    match goal with
    | |- is_Some (<[?key := _]> _ !! k) -> _ =>
        destruct (decide (key = k)) as [<- | Hne];
          [tauto | rewrite lookup_insert_ne by exact Hne; tauto]
    end.
Qed.

Lemma fold_doc_line_keys (lines : list string) st k :
  is_Some (doc_parts (fold_left doc_line lines st) !! k) ->
  is_Some (doc_parts st !! k)
  \/ k = "name" \/ k = "description" \/ k = "returns".
Proof.
  revert st. induction lines as [|l lines IH]; intros st; simpl; [tauto |].
  intros H. apply IH in H as [H | H]; [| tauto].
  apply doc_line_keys in H. tauto.
Qed.

(** X9: the dictionary that [parse_docstring] returns has no key besides
    [name], [description], [parameters] and [returns]. *)
Theorem parse_docstring_keys d k :
  is_Some (parse_docstring d !! k) ->
  k = "name" \/ k = "description" \/ k = "parameters" \/ k = "returns".
Proof.
  unfold parse_docstring. rewrite scan_docstring_lines.
  assert (Hfold : is_Some (doc_parts (fold_left doc_line (stripped_lines d)
                                        start_state) !! k) ->
                  k = "name" \/ k = "description" \/ k = "returns").
  { intros H. apply fold_doc_line_keys in H as [[v H] | H]; [| exact H].
    simpl in H. rewrite lookup_empty in H. discriminate. }
  destruct (parameters _); [tauto |].
  destruct (decide ("parameters" = k)) as [<- | Hne]; [tauto |].
  rewrite lookup_insert_ne by exact Hne. tauto.
Qed.

Lemma parse_docstring_keys_witness :
  "returns" = "name" \/ "returns" = "description"
  \/ "returns" = "parameters" \/ "returns" = "returns".
Proof.
  apply (parse_docstring_keys returns_doc "returns").
  exists "second (int): two". reflexivity.
Defined.

(** What one trimmed line does to the list [parameters]. *)
Lemma doc_line_parameters st line :
  PyStr.strip line = line ->
  parameters (doc_line st line) = parameters st
  \/ (parameters (doc_line st line) = parameters st ++ [line]
      /\ captured line = true /\ is_label line = false).
Proof.
  intros Hs. unfold doc_line, is_label, captured.
  destruct (PyStr.startswith "Name:" line); [simpl; tauto |].
  destruct (PyStr.startswith "Description:" line); [simpl; tauto |].
  destruct (PyStr.startswith "Parameters:" line); [simpl; tauto |].
  destruct (PyStr.startswith "Returns:" line); [simpl; tauto |].
  destruct (is_parameters (current_section st)); simpl.
  - destruct (PyStr.nonempty line); simpl.
    + destruct (PyStr.contains_char ":" line); simpl.
      * rewrite Hs. tauto.
      * destruct (is_returns (current_section st)); simpl; tauto.
    + destruct (is_returns (current_section st)); simpl; tauto.
  - destruct (is_returns (current_section st) && PyStr.nonempty line
              && PyStr.contains_char ":" line); simpl; tauto.
Qed.

Lemma fold_doc_line_parameters (lines : list string) :
  forall st,
    Forall (fun l => PyStr.strip l = l) lines ->
    exists ps,
      parameters (fold_left doc_line lines st) = parameters st ++ ps
      /\ sublist ps lines
      /\ Forall (fun l => captured l = true /\ is_label l = false) ps.
Proof.
  induction lines as [|l lines IH]; intros st HS; simpl.
  - exists []. rewrite app_nil_r. repeat split; constructor.
  - inversion HS as [|? ? Hl HS']; subst.
    destruct (IH (doc_line st l) HS') as (ps & E & Hsub & Hall).
    destruct (doc_line_parameters st l Hl) as [Hp | (Hp & Hc & Hlab)].
    + exists ps. rewrite E, Hp. repeat split;
        [apply sublist_cons |]; assumption.
    + exists (l :: ps). rewrite E, Hp, <- app_assoc. repeat split.
      * apply sublist_skip. exact Hsub.
      * constructor; [split |]; assumption.
Qed.

Lemma stripped_lines_all d :
  Forall (fun l => PyStr.strip l = l) (stripped_lines d).
Proof. apply List.Forall_forall. intros l. apply stripped_lines_stripped. Qed.

Lemma join_nonempty sep p ps :
  PyStr.nonempty p = true -> PyStr.nonempty (PyStr.join sep (p :: ps)) = true.
Proof.
  intros H. unfold PyStr.join. simpl. destruct ps; [exact H |].
  destruct p; [discriminate | reflexivity].
Qed.

(** X10: the entry [parameters], when there is one, is the newline-join of
    one or more lines of the docstring, in their order, each non-empty,
    with a colon and not a label; it is never the empty text. *)
Theorem parameters_entry_is_joined_lines d v :
  parse_docstring d !! "parameters" = Some v ->
  exists ps,
    v = PyStr.join PyStr.nl ps
    /\ ps <> []
    /\ sublist ps (stripped_lines d)
    /\ Forall (fun l => captured l = true /\ is_label l = false) ps
    /\ PyStr.nonempty v = true.
Proof.
  unfold parse_docstring. rewrite scan_docstring_lines.
  destruct (fold_doc_line_parameters (stripped_lines d) start_state
              (stripped_lines_all d)) as (ps & E & Hsub & Hall).
  simpl in E. rewrite E.
  destruct ps as [|p ps].
  - rewrite fold_parameters_key. simpl. rewrite lookup_empty. discriminate.
  - rewrite lookup_insert_eq. intros [= <-].
    exists (p :: ps). repeat split; try assumption; [discriminate |].
    apply join_nonempty. inversion Hall as [|? ? [Hc _] _]; subst.
    unfold captured in Hc. apply andb_prop in Hc. tauto.
Qed.

Lemma parameters_entry_is_joined_lines_witness :
  exists ps,
    "a (int): the number" = PyStr.join PyStr.nl ps
    /\ ps <> []
    /\ sublist ps (stripped_lines described_doc)
    /\ Forall (fun l => captured l = true /\ is_label l = false) ps
    /\ PyStr.nonempty "a (int): the number" = true.
Proof.
  apply (parameters_entry_is_joined_lines described_doc). reflexivity.
Defined.

Lemma fold_doc_line_free_text (lines : list string) :
  Forall (fun l => is_label l = false) lines ->
  fold_left doc_line lines start_state = start_state.
Proof.
  induction 1 as [|l lines Hl _ IH]; simpl; [reflexivity |].
  rewrite (doc_line_plain start_state l Hl). exact IH.
Qed.

(** X11: a function whose docstring is not empty and has no label line
    yields a record: the function's name, an empty description, the
    parameter list as [inputs] and the return annotation, or [None], as
    [outputs]. *)
Theorem free_text_docstring_record fname fargs returns body d :
  get_docstring (FunctionDef fname fargs returns body) = Some d ->
  PyStr.nonempty d = true ->
  Forall (fun l => is_label l = false) (stripped_lines d) ->
  parse_docstring d = ∅
  /\ parse_function_node (FunctionDef fname fargs returns body)
     = Some (mk_tool_info (VStr fname) (VStr "")
               (VStr (PyStr.join PyStr.nl
                        (map render_param (map param_entry (args fargs)))))
               match returns with
               | Some r => VStr (unparse r)
               | None => VNone
               end).
Proof.
  intros Hdoc Hd Hfree.
  assert (E : parse_docstring d = ∅).
  { unfold parse_docstring. rewrite scan_docstring_lines.
    rewrite (fold_doc_line_free_text _ Hfree). reflexivity. }
  split; [exact E |].
  unfold parse_function_node. rewrite Hdoc, Hd, E. reflexivity.
Qed.

Lemma free_text_docstring_record_witness :
  parse_docstring free_text = ∅
  /\ parse_function_node function_free_text
     = Some (mk_tool_info (VStr "f") (VStr "") (VStr "a (int)") (VStr "str")).
Proof.
  apply (free_text_docstring_record "f"
           (positional [mk_arg "a" (Some (Name "int"))] [])
           (Some (Name "str")) [Expr (str_lit free_text); pass_stmt]
           free_text).
  - reflexivity.
  - reflexivity.
  - repeat constructor.
Defined.

Lemma doc_line_description_kept st line :
  PyStr.startswith "Description:" line = false ->
  doc_parts (doc_line st line) !! "description"
  = doc_parts st !! "description".
Proof.
  intros H. unfold doc_line. rewrite H.
  repeat match goal with
         | |- context [if ?b then _ else _] => destruct b
         end; simpl; try reflexivity; apply lookup_insert_ne; discriminate.
Qed.

Lemma fold_description_kept (lines : list string) :
  forall st,
    Forall (fun l => PyStr.startswith "Description:" l = false) lines ->
    doc_parts (fold_left doc_line lines st) !! "description"
    = doc_parts st !! "description".
Proof.
  induction lines as [|l lines IH]; intros st HF; simpl; [reflexivity |].
  inversion HF as [|? ? Hl HF']; subst.
  rewrite (IH _ HF'). apply doc_line_description_kept. exact Hl.
Qed.

Lemma parse_docstring_description d :
  parse_docstring d !! "description"
  = doc_parts (scan_docstring d) !! "description".
Proof.
  unfold parse_docstring. destruct (parameters (scan_docstring d));
    [reflexivity | apply lookup_insert_ne; discriminate].
Qed.

(** X12: the description is the last line that starts with
    [Description:], with the label removed wherever it occurs in the line,
    trimmed; the lines after it never add to it. *)
Theorem description_is_one_line
  fname fargs returns body d pre hdr rest info :
  get_docstring (FunctionDef fname fargs returns body) = Some d ->
  stripped_lines d = pre ++ hdr :: rest ->
  PyStr.startswith "Description:" hdr = true ->
  Forall (fun l => PyStr.startswith "Description:" l = false) rest ->
  parse_function_node (FunctionDef fname fargs returns body) = Some info ->
  description info
  = VStr (PyStr.strip (PyStr.replace "Description:" "" hdr)).
Proof.
  intros Hdoc Hlines Hhdr Hrest Hinfo.
  apply (parse_function_node_Some _ _ _ _ _ _ Hdoc) in Hinfo as [_ ->].
  simpl. unfold get_str.
  rewrite parse_docstring_description, scan_docstring_lines, Hlines.
  rewrite fold_left_app. simpl fold_left.
  rewrite (fold_description_kept rest _ Hrest).
  unfold doc_line at 1.
  assert (Hn : PyStr.startswith "Name:" hdr = false)
    by (eapply startswith_head; [exact Hhdr | discriminate]).
  rewrite Hn, Hhdr. simpl. rewrite lookup_insert_eq. reflexivity.
Qed.

Lemma description_is_one_line_witness :
  description (mk_tool_info (VStr "h") (VStr "Adds one")
                 (VStr "a (int): the number") VNone)
  = VStr (PyStr.strip (PyStr.replace "Description:" "" "Description: Adds one")).
Proof.
  apply (description_is_one_line "h" (positional [mk_arg "a" None] []) None
           [Expr (str_lit described_doc); pass_stmt] described_doc
           [] "Description: Adds one"
           ["to its argument."; "Parameters:"; "a (int): the number"]).
  - reflexivity.
  - reflexivity.
  - reflexivity.
  - repeat constructor.
  - reflexivity.
Defined.

Lemma get_str_shape doc key default :
  is_str (get_str doc key default) = true \/ get_str doc key default = default.
Proof. unfold get_str. destruct (doc !! key); [left | right]; reflexivity. Qed.

Lemma parse_function_node_shape n info :
  parse_function_node n = Some info ->
  qualifying n = true
  /\ name info = VStr (function_name n)
  /\ is_str (description info) = true
  /\ is_str (inputs info) = true
  /\ (is_str (outputs info) = true \/ outputs info = VNone).
Proof.
  destruct n as [| |fname fargs returns body| | | |]; try discriminate.
  unfold qualifying. simpl is_FunctionDef.
  destruct (get_docstring (FunctionDef fname fargs returns body)) as [d|] eqn:Hdoc.
  - intros H.
    destruct (parse_function_node_Some _ _ _ _ _ _ Hdoc H) as [Hd ->].
    simpl. rewrite Hd. repeat split.
    + destruct (get_str_shape (parse_docstring d) "description" (VStr ""))
        as [E | ->]; [exact E | reflexivity].
    + match goal with
      | |- is_str (get_str ?doc ?k ?def) = true =>
          destruct (get_str_shape doc k def) as [E | ->];
            [exact E | reflexivity]
      end.
    + match goal with
      | |- is_str (get_str ?doc ?k ?def) = true \/ _ =>
          destruct (get_str_shape doc k def) as [E | ->]; [left; exact E |]
      end.
      destruct returns; [left | right]; reflexivity.
  - unfold parse_function_node. rewrite Hdoc. discriminate.
Qed.

(** X13: in every record of the function-based extractor the name, the
    description and the inputs are strings, and the outputs are a string
    or [None]; the name is the identifier of a function definition of the
    tree, whatever its docstring says after [Name:]. *)
Theorem function_records_shape tree info :
  In info (ChemToolBench.parse_tree tree) ->
  (exists n, In n (walk tree) /\ qualifying n = true
             /\ name info = VStr (function_name n))
  /\ is_str (description info) = true
  /\ is_str (inputs info) = true
  /\ (is_str (outputs info) = true \/ outputs info = VNone).
Proof.
  unfold ChemToolBench.parse_tree.
  induction (walk tree) as [|n nodes IH]; simpl; [tauto |].
  assert (Hrest : In info (collect_tools nodes) ->
                  (exists k, (n = k \/ In k nodes) /\ qualifying k = true
                             /\ name info = VStr (function_name k))
                  /\ is_str (description info) = true
                  /\ is_str (inputs info) = true
                  /\ (is_str (outputs info) = true \/ outputs info = VNone)).
  { intros H. destruct (IH H) as ((k & Hk & Hq) & Hfields).
    split; [exists k; tauto | exact Hfields]. }
  destruct (is_FunctionDef n); [| exact Hrest].
  destruct (parse_function_node n) as [tool|] eqn:E; [| exact Hrest].
  intros [<- | Hin]; [| exact (Hrest Hin)].
  apply parse_function_node_shape in E as (Hq & Hn & Hfields).
  split; [exists n; tauto | exact Hfields].
Qed.

Lemma function_records_shape_witness :
  (exists n, In n (walk (Module [function_described]))
             /\ qualifying n = true
             /\ name (mk_tool_info (VStr "f") (VStr "d")
                        (VStr (doc_of ["self (None)"; "a (int)"])) VNone)
                = VStr (function_name n))
  /\ is_str (VStr "d") = true
  /\ is_str (VStr (doc_of ["self (None)"; "a (int)"])) = true
  /\ (is_str VNone = true \/ VNone = VNone).
Proof.
  apply (function_records_shape (Module [function_described])
           (mk_tool_info (VStr "f") (VStr "d")
              (VStr (doc_of ["self (None)"; "a (int)"])) VNone)).
  left. reflexivity.
Defined.

Lemma parse_function_node_qualifying n :
  qualifying n = true -> exists info, parse_function_node n = Some info.
Proof.
  unfold qualifying. destruct n; try discriminate. simpl.
  destruct (match body with
            | Expr (Constant (VStr text) _) :: _ => Some (cleandoc text)
            | _ => None
            end) as [d|]; [| discriminate].
  intros ->. eexists. reflexivity.
Qed.

(** X14: the function-based extractor gives one record for each function
    definition with a non-empty docstring, methods and nested functions
    included, and none for any other node; the records carry the names of
    these functions in the order of the traversal. *)
Theorem one_record_per_documented_function tree :
  map name (ChemToolBench.parse_tree tree)
  = map (fun n => VStr (function_name n)) (List.filter qualifying (walk tree)).
Proof.
  unfold ChemToolBench.parse_tree.
  induction (walk tree) as [|n nodes IH]; simpl; [reflexivity |].
  destruct (is_FunctionDef n) eqn:Hf.
  - destruct (parse_function_node n) as [tool|] eqn:E.
    + apply parse_function_node_shape in E as (-> & Hn & _).
      simpl. rewrite Hn, IH. reflexivity.
    + destruct (qualifying n) eqn:Hq; [| exact IH].
      apply parse_function_node_qualifying in Hq as [info Hq]. congruence.
  - unfold qualifying at 1. rewrite Hf. exact IH.
Qed.

End LabelledDocstring.


(** ** More on the order of the records *)

Section RecordOrder.
Import Ast Examples MoreExamples Shape.
Local Open Scope list_scope.

Lemma preorder_depth_lt (n : node) :
  forall d p, In p (preorder d n) -> fst p < d + size n.
Proof.
  induction n as [n IH] using node_children_ind. intros d p.
  rewrite preorder_eq. intros [<- | Hin].
  - simpl. pose proof (size_pos n). lia.
  - apply in_flat_map in Hin as (c & Hc & Hp).
    apply (IH c Hc) in Hp. apply sizes_In in Hc.
    rewrite (size_children n). lia.
Qed.

Lemma filter_everything {A : Type} (f : A -> bool) (l : list A) :
  (forall x, In x l -> f x = true) -> List.filter f l = l.
Proof.
  induction l as [|x l IH]; intros H; simpl; [reflexivity |].
  rewrite (H x) by (left; reflexivity). f_equal.
  apply IH. intros y Hy. apply H. right. exact Hy.
Qed.

Lemma depth_filter_split (l : list (nat * node)) (m : nat) :
  List.filter (fun p => Nat.ltb (fst p) m) l
  ++ List.filter (fun p => Nat.eqb (fst p) m) l
  ≡ₚ List.filter (fun p => Nat.ltb (fst p) (S m)) l.
Proof.
  induction l as [|p l IH]; simpl; [reflexivity |].
  destruct (lt_eq_lt_dec (fst p) m) as [[H | H] | H].
  - replace (Nat.ltb (fst p) m) with true by (symmetry; apply Nat.ltb_lt; lia).
    replace (Nat.eqb (fst p) m) with false by (symmetry; apply Nat.eqb_neq; lia).
    replace (Nat.ltb (fst p) (S m)) with true
      by (symmetry; apply Nat.ltb_lt; lia).
    simpl. apply Permutation_cons; [reflexivity | exact IH].
  - replace (Nat.ltb (fst p) m) with false by (symmetry; apply Nat.ltb_ge; lia).
    replace (Nat.eqb (fst p) m) with true by (symmetry; apply Nat.eqb_eq; lia).
    replace (Nat.ltb (fst p) (S m)) with true
      by (symmetry; apply Nat.ltb_lt; lia).
    rewrite <- Permutation_middle.
    apply Permutation_cons; [reflexivity | exact IH].
  - replace (Nat.ltb (fst p) m) with false by (symmetry; apply Nat.ltb_ge; lia).
    replace (Nat.eqb (fst p) m) with false by (symmetry; apply Nat.eqb_neq; lia).
    replace (Nat.ltb (fst p) (S m)) with false
      by (symmetry; apply Nat.ltb_ge; lia).
    exact IH.
Qed.

Lemma levels_permutation (l : list (nat * node)) (m : nat) :
  flat_map (fun k => List.filter (fun p => Nat.eqb (fst p) k) l) (seq 0 m)
  ≡ₚ List.filter (fun p => Nat.ltb (fst p) m) l.
Proof.
  induction m as [|m IH].
  - simpl. rewrite filter_nothing; [reflexivity |]. intros p _. reflexivity.
  - rewrite seq_S, flat_map_app. simpl. rewrite app_nil_r, IH.
    apply depth_filter_split.
Qed.

(** [ast.walk] reaches the same nodes as a reading of the source from top
    to bottom, each node once. *)
Lemma walk_permutation (tree : node) : walk tree ≡ₚ document_order tree.
Proof.
  rewrite walk_level_order. unfold nodes_at_depth, document_order.
  rewrite <- (map_flat_map' snd
                (fun k => List.filter (fun p => Nat.eqb (fst p) k)
                            (preorder 0 tree))).
  apply Permutation_map. rewrite levels_permutation.
  rewrite filter_everything; [reflexivity |].
  intros p Hp. apply Nat.ltb_lt. apply (preorder_depth_lt tree 0 p Hp).
Qed.

Lemma cactus_collect_permutation constants (l l' : list node) :
  l ≡ₚ l' ->
  Cactus.collect_tools constants l ≡ₚ Cactus.collect_tools constants l'.
Proof.
  induction 1 as [| n l l' _ IH | n k l | l l' l'' _ IH1 _ IH2]; simpl.
  - reflexivity.
  - destruct (Cactus.is_ClassDef n); [| exact IH].
    destruct (Cactus._extract_tool_info n constants); [| exact IH].
    apply Permutation_cons; [reflexivity | exact IH].
  - destruct (Cactus.is_ClassDef n), (Cactus.is_ClassDef k);
      try destruct (Cactus._extract_tool_info n constants);
      try destruct (Cactus._extract_tool_info k constants);
      try reflexivity; apply perm_swap.
  - etransitivity; eassumption.
Qed.

Lemma chem_collect_permutation (l l' : list node) :
  l ≡ₚ l' ->
  ChemToolBench.collect_tools l ≡ₚ ChemToolBench.collect_tools l'.
Proof.
  induction 1 as [| n l l' _ IH | n k l | l l' l'' _ IH1 _ IH2]; simpl.
  - reflexivity.
  - destruct (ChemToolBench.is_FunctionDef n); [| exact IH].
    destruct (ChemToolBench.parse_function_node n); [| exact IH].
    apply Permutation_cons; [reflexivity | exact IH].
  - destruct (ChemToolBench.is_FunctionDef n), (ChemToolBench.is_FunctionDef k);
      try destruct (ChemToolBench.parse_function_node n);
      try destruct (ChemToolBench.parse_function_node k);
      try reflexivity; apply perm_swap.
  - etransitivity; eassumption.
Qed.

(** X15: the records of either extractor are, up to their order, the
    records of the definitions met when the source is read from top to
    bottom: nesting changes the position of a record, never whether it is
    there or how often. *)
Theorem records_up_to_order tree :
  Cactus.parse_tree tree
  ≡ₚ Cactus.collect_tools (Cactus._extract_module_constants tree)
       (document_order tree)
  /\ ChemToolBench.parse_tree tree
     ≡ₚ ChemToolBench.collect_tools (document_order tree).
Proof.
  split.
  - apply cactus_collect_permutation, walk_permutation.
  - apply chem_collect_permutation, walk_permutation.
Qed.

Lemma filter_map_snd (sel : node -> bool) (l : list (nat * node)) :
  List.filter sel (map snd l) = map snd (List.filter (fun p => sel (snd p)) l).
Proof.
  induction l as [|p l IH]; simpl; [reflexivity |].
  destruct (sel (snd p)); simpl; rewrite IH; reflexivity.
Qed.

Lemma selected_level (sel : node -> bool) (d k : nat) (l : list (nat * node)) :
  (forall p, In p l -> sel (snd p) = true -> fst p = d) ->
  List.filter sel (map snd (List.filter (fun p => Nat.eqb (fst p) k) l))
  = if Nat.eqb k d then List.filter sel (map snd l) else [].
Proof.
  induction l as [|p l IH]; intros H; simpl.
  - destruct (Nat.eqb k d); reflexivity.
  - assert (IH' := IH (fun q Hq => H q (or_intror Hq))).
    destruct (sel (snd p)) eqn:Hs.
    + rewrite (H p (or_introl eq_refl) Hs).
      destruct (Nat.eqb_spec d k) as [<- | Hne].
      * simpl. rewrite Hs, IH', Nat.eqb_refl. reflexivity.
      * rewrite IH'. destruct (Nat.eqb_spec k d); [congruence | reflexivity].
    + destruct (Nat.eqb (fst p) k); simpl; rewrite ?Hs; exact IH'.
Qed.

Lemma one_level_of_many {A : Type} (X : list A) (d m : nat) :
  flat_map (fun k => if Nat.eqb k d then X else []) (seq 0 m)
  = if Nat.ltb d m then X else [].
Proof.
  induction m as [|m IH]; [reflexivity |].
  rewrite seq_S, flat_map_app, IH. simpl. rewrite app_nil_r.
  destruct (Nat.eqb_spec m d) as [-> | Hne].
  - replace (Nat.ltb d d) with false by (symmetry; apply Nat.ltb_ge; lia).
    replace (Nat.ltb d (S d)) with true by (symmetry; apply Nat.ltb_lt; lia).
    reflexivity.
  - rewrite app_nil_r.
    destruct (Nat.ltb_spec d m), (Nat.ltb_spec d (S m)); try reflexivity; lia.
Qed.

(** When all the selected nodes have one nesting depth, [ast.walk] meets
    them in the order of the source. *)
Lemma walk_selected_in_document_order (sel : node -> bool) (d : nat) tree :
  all_at_depth sel d tree ->
  List.filter sel (walk tree) = List.filter sel (document_order tree).
Proof.
  intros H. rewrite walk_level_order, filter_flat_map'.
  unfold nodes_at_depth, document_order.
  rewrite (flat_map_ext _
             (fun k => if Nat.eqb k d
                       then List.filter sel (map snd (preorder 0 tree))
                       else []))
    by (intros k; apply selected_level; exact H).
  rewrite one_level_of_many.
  destruct (Nat.ltb_spec d (size tree)) as [Hlt | Hge]; [reflexivity |].
  symmetry. rewrite filter_map_snd, filter_nothing; [reflexivity |].
  intros p Hp. destruct (sel (snd p)) eqn:Hs; [| reflexivity].
  pose proof (H p Hp Hs). pose proof (preorder_depth_lt tree 0 p Hp). lia.
Qed.

Lemma cactus_collect_classes constants (l : list node) :
  Cactus.collect_tools constants l
  = Cactus.collect_tools constants (List.filter Cactus.is_ClassDef l).
Proof.
  induction l as [|n l IH]; simpl; [reflexivity |].
  destruct (Cactus.is_ClassDef n) eqn:Hc; [| exact IH].
  simpl. rewrite Hc, IH. reflexivity.
Qed.

Lemma chem_collect_functions (l : list node) :
  ChemToolBench.collect_tools l
  = ChemToolBench.collect_tools (List.filter ChemToolBench.is_FunctionDef l).
Proof.
  induction l as [|n l IH]; simpl; [reflexivity |].
  destruct (ChemToolBench.is_FunctionDef n) eqn:Hf; [| exact IH].
  simpl. rewrite Hf, IH. reflexivity.
Qed.

(** X16: when all the class definitions of a module have the same nesting
    depth, as when none is nested in a class, a function or a compound
    statement, the records of the class-based extractor are in the order
    in which the classes are written. *)
Theorem classes_of_one_depth_in_document_order d tree :
  all_at_depth Cactus.is_ClassDef d tree ->
  Cactus.parse_tree tree
  = Cactus.collect_tools (Cactus._extract_module_constants tree)
      (document_order tree).
Proof.
  intros H. unfold Cactus.parse_tree.
  rewrite cactus_collect_classes.
  rewrite (walk_selected_in_document_order _ d tree H).
  symmetry. apply cactus_collect_classes.
Qed.

Lemma classes_of_one_depth_in_document_order_witness :
  Cactus.parse_tree module_flat
  = Cactus.collect_tools (Cactus._extract_module_constants module_flat)
      (document_order module_flat).
Proof.
  apply (classes_of_one_depth_in_document_order 1).
  intros p Hp Hs. simpl in Hp.
  repeat (destruct Hp as [<- | Hp]; [first [reflexivity | discriminate Hs] |]).
  destruct Hp.
Defined.

(** X17: when all the function definitions of a module have the same
    nesting depth, the records of the function-based extractor are in the
    order in which the functions are written. *)
Theorem functions_of_one_depth_in_document_order d tree :
  all_at_depth ChemToolBench.is_FunctionDef d tree ->
  ChemToolBench.parse_tree tree
  = ChemToolBench.collect_tools (document_order tree).
Proof.
  intros H. unfold ChemToolBench.parse_tree.
  rewrite chem_collect_functions.
  rewrite (walk_selected_in_document_order _ d tree H).
  symmetry. apply chem_collect_functions.
Qed.

Lemma functions_of_one_depth_in_document_order_witness :
  map name (ChemToolBench.parse_tree module_two_functions)
  = [VStr "f"; VStr "g"]
  /\ ChemToolBench.parse_tree module_two_functions
     = ChemToolBench.collect_tools (document_order module_two_functions).
Proof.
  split; [reflexivity |].
  apply (functions_of_one_depth_in_document_order 1).
  intros p Hp Hs. simpl in Hp.
  repeat (destruct Hp as [<- | Hp]; [first [reflexivity | discriminate Hs] |]).
  destruct Hp.
Defined.

Lemma extract_tool_info_qualifying constants n :
  Cactus.is_ClassDef n = true ->
  Cactus._extract_tool_info n constants
  = if Cactus.qualifying constants n
    then Some (Cactus.run_step (Cactus.attributes constants (node_body n))
                 (node_body n))
    else None.
Proof.
  intros Hc. unfold Cactus.qualifying, Cactus._extract_tool_info.
  rewrite Hc. simpl andb.
  fold (Cactus.attributes constants (node_body n)).
  destruct (run_step_attrs (Cactus.attributes constants (node_body n))
              (node_body n)) as [-> ->].
  reflexivity.
Qed.

(** X18: the class-based extractor gives one record for each class
    definition whose [name] and [description] resolve to non-empty values,
    nested classes included, and none for any other node; the records
    carry these names and descriptions in the order of the traversal. *)
Theorem one_record_per_qualifying_class tree :
  let constants := Cactus._extract_module_constants tree in
  map (fun info => (name info, description info)) (Cactus.parse_tree tree)
  = map (fun n =>
           (name (Cactus.attributes constants (node_body n)),
            description (Cactus.attributes constants (node_body n))))
      (List.filter (Cactus.qualifying constants) (walk tree)).
Proof.
  intros constants. unfold Cactus.parse_tree. fold constants.
  induction (walk tree) as [|n nodes IH]; simpl; [reflexivity |].
  destruct (Cactus.is_ClassDef n) eqn:Hc.
  - rewrite (extract_tool_info_qualifying constants n Hc).
    destruct (Cactus.qualifying constants n); [| exact IH].
    simpl. rewrite IH.
    destruct (run_step_attrs (Cactus.attributes constants (node_body n))
                (node_body n)) as [-> ->].
    reflexivity.
  - unfold Cactus.qualifying at 1. rewrite Hc. exact IH.
Qed.

End RecordOrder.

(** ** More on the first method [_run], the entry [returns] and the report *)

Section RunAndReport.
Import Ast ChemToolBench Examples MoreExamples Shape.
Local Open Scope list_scope.

(** X19: [inputs] and [outputs] of a class's record come from the first
    method named [_run] among the class's statements; what follows it,
    a second [_run] included, does not change them. *)
Theorem first_run_decides_inputs
  constants cname pre post fargs returns fbody info :
  Cactus.has_run pre = false ->
  Cactus._extract_tool_info
    (ClassDef cname (pre ++ FunctionDef "_run" fargs returns fbody :: post))
    constants = Some info ->
  (inputs info, outputs info)
  = (VStr (fst (Cactus._parse_docstring
                  (get_docstring (FunctionDef "_run" fargs returns fbody))
                  fargs returns)),
     VStr (snd (Cactus._parse_docstring
                  (get_docstring (FunctionDef "_run" fargs returns fbody))
                  fargs returns))).
Proof.
  intros Hpre Hinfo. apply extract_tool_info_Some in Hinfo as [-> _].
  rewrite (run_step_first _ pre post fargs returns fbody Hpre). reflexivity.
Qed.

Lemma first_run_decides_inputs_witness :
  (inputs (mk_tool_info (VStr "t") (VStr "d") (VStr "a: int, b: str") (VStr "")),
   outputs (mk_tool_info (VStr "t") (VStr "d") (VStr "a: int, b: str") (VStr "")))
  = (VStr (fst (Cactus._parse_docstring (get_docstring run_no_doc)
                  (positional [mk_arg "self" None; mk_arg "a" (Some (Name "int"));
                               mk_arg "b" (Some (Name "str"))] [str_lit "x"])
                  None)),
     VStr (snd (Cactus._parse_docstring (get_docstring run_no_doc)
                  (positional [mk_arg "self" None; mk_arg "a" (Some (Name "int"));
                               mk_arg "b" (Some (Name "str"))] [str_lit "x"])
                  None))).
Proof.
  apply (first_run_decides_inputs ∅ "T"
           [annotated "name" (str_lit "t"); annotated "description" (str_lit "d")]
           [run_plain_doc]
           (positional [mk_arg "self" None; mk_arg "a" (Some (Name "int"));
                        mk_arg "b" (Some (Name "str"))] [str_lit "x"])
           None [pass_stmt]);
    reflexivity.
Defined.

(** What one trimmed line does to the entry [returns]. *)
Lemma doc_line_returns_entry st line :
  PyStr.strip line = line ->
  doc_parts (ChemToolBench.doc_line st line) !! "returns"
  = doc_parts st !! "returns"
  \/ (doc_parts (ChemToolBench.doc_line st line) !! "returns" = Some line
      /\ ChemToolBench.captured line = true
      /\ ChemToolBench.is_label line = false).
Proof.
  intros Hs.
  unfold ChemToolBench.doc_line, ChemToolBench.is_label, ChemToolBench.captured.
  destruct (PyStr.startswith "Name:" line);
    [left; apply lookup_insert_ne; discriminate |].
  destruct (PyStr.startswith "Description:" line);
    [left; apply lookup_insert_ne; discriminate |].
  destruct (PyStr.startswith "Parameters:" line); [left; reflexivity |].
  destruct (PyStr.startswith "Returns:" line); [left; reflexivity |].
  destruct (ChemToolBench.is_parameters (ChemToolBench.current_section st)
            && PyStr.nonempty line && PyStr.contains_char ":" line);
    [left; reflexivity |].
  destruct (ChemToolBench.is_returns (ChemToolBench.current_section st));
    [| left; reflexivity].
  simpl. destruct (PyStr.nonempty line); [| left; reflexivity].
  destruct (PyStr.contains_char ":" line); [| left; reflexivity].
  right. simpl. rewrite Hs, lookup_insert_eq. tauto.
Qed.

Lemma fold_returns_entry (lines : list string) :
  forall st v,
    Forall (fun l => PyStr.strip l = l) lines ->
    doc_parts (fold_left ChemToolBench.doc_line lines st) !! "returns" = Some v ->
    doc_parts st !! "returns" = Some v
    \/ (In v lines /\ ChemToolBench.captured v = true
        /\ ChemToolBench.is_label v = false).
Proof.
  induction lines as [|l lines IH]; intros st v HS; simpl; [tauto |].
  inversion HS as [|? ? Hl HS']; subst.
  intros H. apply (IH _ _ HS') in H as [H | H]; [| tauto].
  destruct (doc_line_returns_entry st l Hl) as [E | (E & Hc & Hlab)].
  - left. congruence.
  - rewrite E in H. injection H as <-. tauto.
Qed.

(** X20: the entry [returns], when there is one, is a single line of the
    docstring, trimmed, non-empty, with a colon and not a label. *)
Theorem returns_entry_is_one_line d v :
  ChemToolBench.parse_docstring d !! "returns" = Some v ->
  In v (ChemToolBench.stripped_lines d)
  /\ ChemToolBench.captured v = true
  /\ ChemToolBench.is_label v = false.
Proof.
  rewrite parse_docstring_returns, scan_docstring_lines. intros H.
  assert (HS : Forall (fun l => PyStr.strip l = l) (stripped_lines d))
    by (apply List.Forall_forall; intros l; apply stripped_lines_stripped).
  destruct (fold_returns_entry _ _ _ HS H) as [E | E]; [| exact E].
  simpl in E. rewrite lookup_empty in E. discriminate.
Qed.

Lemma returns_entry_is_one_line_witness :
  In "second (int): two" (ChemToolBench.stripped_lines returns_doc)
  /\ ChemToolBench.captured "second (int): two" = true
  /\ ChemToolBench.is_label "second (int): two" = false.
Proof.
  apply (returns_entry_is_one_line returns_doc). reflexivity.
Defined.

Lemma split_not_nil sep s : PyStr.split sep s <> [].
Proof.
  destruct s as [|c s]; simpl; [discriminate |].
  destruct (Ascii.eqb c sep); [discriminate |].
  destruct (PyStr.split sep s); discriminate.
Qed.

Lemma flatten_inputs_String c s :
  Report.flatten_inputs (String c s)
  = String (Report.newline_to_tab c) (Report.flatten_inputs s).
Proof.
  unfold Report.flatten_inputs, Report.newline_to_tab, PyStr.join. simpl.
  pose proof (split_not_nil PyStr.NL s) as Hne.
  destruct (Ascii.eqb c PyStr.NL).
  - destruct (PyStr.split PyStr.NL s) as [|h t]; [contradiction | reflexivity].
  - destruct (PyStr.split PyStr.NL s) as [|h [|h' t]];
      [contradiction | reflexivity | reflexivity].
Qed.

(** X21: the report line that rewrites [inputs] replaces every newline by
    a tab and changes nothing else: the text keeps its length and holds
    no newline afterwards. *)
Theorem flatten_inputs_replaces_newlines s :
  Report.flatten_inputs s = Report.translate Report.newline_to_tab s
  /\ String.length (Report.flatten_inputs s) = String.length s
  /\ PyStr.contains_char PyStr.NL (Report.flatten_inputs s) = false.
Proof.
  induction s as [|c s (IH1 & IH2 & IH3)]; [repeat split |].
  rewrite flatten_inputs_String. split; [| split].
  - simpl. rewrite IH1. reflexivity.
  - simpl. rewrite IH2. reflexivity.
  - change (Ascii.eqb PyStr.NL (Report.newline_to_tab c)
            || PyStr.contains_char PyStr.NL (Report.flatten_inputs s) = false).
    rewrite IH3, orb_false_r. unfold Report.newline_to_tab.
    destruct (Ascii.eqb c PyStr.NL) eqn:E; [reflexivity |].
    rewrite Ascii.eqb_sym. exact E.
Qed.

End RunAndReport.
